(** * Krishi Sakhi (FarmVichar-ML): the chat and voice-log pipeline

    A shallow embedding of the request pipeline of [krishisakhi_api]:
    [utils/translation_utils.py], [utils/rag_utils.py],
    [utils/chatbot_utils.py], [utils/ml_utils.py], [crud.py] and the
    endpoints of [main.py].

    The program is glue around external services (the generative model,
    the embedding service, the FAISS index, the speech service, the remote
    farm-data backend).  Each of them is an oracle of a [World]; a call
    appends an [event] to the trace of the run, and the oracle answers from
    the trace so far, so answers may change from call to call.  Python
    exceptions are the [Raises] outcome of a computation; [try]/[except]
    is [try_except].  Calls of [print] are left out: they do not raise on
    the values the code passes and nothing reads what they write. *)

From Stdlib Require Import ZArith List String Ascii Bool Lia.
Import ListNotations.
Set Warnings "-register-all".
Open Scope string_scope.
Open Scope Z_scope.

(** ** Python values used by the code *)

Definition bytes := list Byte.byte.

(** The line feed: Python's ["\n"]. *)
Definition LF : string := String (ascii_of_nat 10) EmptyString.

(** The double quote character, as a one-character string. *)
Definition DQ : string := String (ascii_of_nat 34) EmptyString.

(** A Python [str] is modelled by its bytes.  [str.isspace] on them: TAB,
    LF, VT, FF, CR, the separators FS, GS, RS, US, and the space; the
    spaces of Unicode outside ASCII are not modelled. *)
Definition isspace (c : ascii) : bool :=
  let n := nat_of_ascii c in
  (((9 <=? n) && (n <=? 13)) || ((28 <=? n) && (n <=? 32)))%nat.

Fixpoint lstrip_chars (s : list ascii) : list ascii :=
  match s with
  | c :: s' => if isspace c then lstrip_chars s' else s
  | [] => []
  end.

(** [str.strip()] with no argument. *)
Definition strip (s : string) : string :=
  string_of_list_ascii
    (rev (lstrip_chars (rev (lstrip_chars (list_ascii_of_string s))))).

(** [str.upper()] on ASCII letters. *)
Definition upper_char (c : ascii) : ascii :=
  let n := nat_of_ascii c in
  if ((97 <=? n) && (n <=? 122))%nat then ascii_of_nat (n - 32) else c.

Fixpoint upper (s : string) : string :=
  match s with
  | EmptyString => EmptyString
  | String c s' => String (upper_char c) (upper s')
  end.

(** [sep.join(parts)]. *)
Definition join (sep : string) (parts : list string) : string :=
  String.concat sep parts.

(** ** Exceptions

    Every value of [exn] is an instance of Python's [Exception].
    Interrupts of the process ([KeyboardInterrupt], [SystemExit]) are not
    raised by the calls the code makes and are not modelled. *)

Inductive exc_class : Type :=
| ValueError
| IndexError
| KeyError
| TypeError
| AttributeError
| AssertionError
| ValidationError
| RequestException
| RuntimeError.

Inductive exn : Type :=
| PyExc (cls : exc_class) (msg : string)
| HTTPException (status_code : Z) (detail : string).

Inductive outcome (A : Type) : Type :=
| Returns (a : A)
| Raises (e : exn).
Arguments Returns {A} a.
Arguments Raises {A} e.

(** [except Exception]: every modelled exception is caught. *)
Definition except_Exception (e : exn) : bool := true.

(** [except requests.exceptions.RequestException]. *)
Definition except_RequestException (e : exn) : bool :=
  match e with
  | PyExc RequestException _ => true
  | _ => false
  end.

(** [l[i]] on a Python list, with negative positions counted from the end
    and [IndexError] outside [-len(l) .. len(l)-1]. *)
Definition list_position {A} (l : list A) (i : Z) : Z :=
  if i <? 0 then i + Z.of_nat (List.length l) else i.

Definition list_getitem {A} (l : list A) (i : Z) : outcome A :=
  let j := list_position l i in
  if 0 <=? j then
    match nth_error l (Z.to_nat j) with
    | Some x => Returns x
    | None => Raises (PyExc IndexError "list index out of range")
    end
  else Raises (PyExc IndexError "list index out of range").

(** ** config.py *)

Definition MODEL_NAME : string := "gemini-2.0-flash".
Definition EMBEDDING_MODEL : string := "models/embedding-001".

Definition SUPPORTED_LANGUAGES : list (string * string) :=
  [ ("ml", "Malayalam"); ("mr", "Marathi"); ("hi", "Hindi"); ("en", "English") ].

(** [d.get(key, default)] on a dict with string keys and string values. *)
Fixpoint str_dict_get (d : list (string * string)) (key default : string)
  : string :=
  match d with
  | [] => default
  | (k, v) :: d' => if String.eqb k key then v else str_dict_get d' key default
  end.

(** JSON-like Python values: what the backend returns, what the profile,
    weather and prediction dicts hold.  A float is carried as a ratio; the
    code never computes on one.  A dict keeps its insertion order. *)
Inductive pyval : Type :=
| PNone
| PBool (b : bool)
| PInt (n : Z)
| PFloat (num : Z) (den : positive)
| PStr (s : string)
| PList (items : list pyval)
| PDict (entries : list (string * pyval)).

(** Python truthiness, [bool(v)]. *)
Definition truthy (v : pyval) : bool :=
  match v with
  | PNone => false
  | PBool b => b
  | PInt n => negb (n =? 0)
  | PFloat num _ => negb (num =? 0)
  | PStr s => negb (String.eqb s "")
  | PList items => match items with [] => false | _ => true end
  | PDict entries => match entries with [] => false | _ => true end
  end.

Fixpoint entries_get (d : list (string * pyval)) (key : string)
  : option pyval :=
  match d with
  | [] => None
  | (k, v) :: d' => if String.eqb k key then Some v else entries_get d' key
  end.

(** [d[key] = v]: the entry is replaced in place, or added at the end. *)
Fixpoint entries_set (d : list (string * pyval)) (key : string) (v : pyval)
  : list (string * pyval) :=
  match d with
  | [] => [(key, v)]
  | (k, v0) :: d' =>
      if String.eqb k key then (k, v) :: d' else (k, v0) :: entries_set d' key v
  end.

(** ** Strings and dates of the Python library *)

(** The wall-clock fields of a [datetime]. *)
Record datetime : Type :=
  { year : Z; month : Z; day : Z;
    hour : Z; minute : Z; second : Z; microsecond : Z }.

(** [s.replace(old, new)] for a pattern [old] that is not empty: the
    occurrences are replaced from the left and do not overlap.  [skip]
    counts the characters of a replaced occurrence still to drop. *)
Fixpoint replace_from (old new : string) (skip : nat) (s : string) : string :=
  match s with
  | EmptyString => EmptyString
  | String c s' =>
      match skip with
      | S n => replace_from old new n s'
      | O =>
          if String.prefix old s
          then new ++ replace_from old new (String.length old - 1) s'
          else String c (replace_from old new 0 s')
      end
  end.

Definition replace (old new s : string) : string := replace_from old new 0 s.

Definition digit_char (d : Z) : ascii := ascii_of_nat (48 + Z.to_nat d).

Definition digit_value (c : ascii) : option Z :=
  let n := nat_of_ascii c in
  if ((48 <=? n) && (n <=? 57))%nat then Some (Z.of_nat (n - 48)) else None.

(** [n] in decimal on [width] digits, zero padded ([%02d], [%04d],
    [%06d] on a field that fits). *)
Fixpoint zero_pad (width : nat) (n : Z) : string :=
  match width with
  | O => EmptyString
  | S w => zero_pad w (n / 10) ++ String (digit_char (n mod 10)) EmptyString
  end.

(** Reads exactly [width] decimal digits. *)
Fixpoint parse_digits (width : nat) (acc : Z) (s : string)
  : option (Z * string) :=
  match width with
  | O => Some (acc, s)
  | S w =>
      match s with
      | EmptyString => None
      | String c s' =>
          match digit_value c with
          | Some d => parse_digits w (10 * acc + d) s'
          | None => None
          end
      end
  end.

(** Reads one given character. *)
Definition expect (c : ascii) (s : string) : option string :=
  match s with
  | String c' s' => if Ascii.eqb c c' then Some s' else None
  | EmptyString => None
  end.

(** A [datetime] with its [tzinfo]: the offset from UTC in minutes, or
    [None] for a naive value. *)
Record tz_datetime : Type :=
  { wall : datetime; utcoffset : option Z }.

Definition is_leap (y : Z) : bool :=
  ((y mod 4 =? 0) && negb (y mod 100 =? 0)) || (y mod 400 =? 0).

Definition days_in_month (y m : Z) : Z :=
  if m =? 2 then (if is_leap y then 29 else 28)
  else if (m =? 4) || (m =? 6) || (m =? 9) || (m =? 11) then 30
  else 31.

(** The invariant of a [datetime] object, for the years of four digits. *)
Definition valid_datetime (d : datetime) : Prop :=
  1000 <= year d <= 9999 /\ 1 <= month d <= 12
  /\ 1 <= day d <= days_in_month (year d) (month d)
  /\ 0 <= hour d < 24 /\ 0 <= minute d < 60 /\ 0 <= second d < 60
  /\ 0 <= microsecond d < 1000000.

Definition valid_datetimeb (d : datetime) : bool :=
  (1 <=? year d) && (year d <=? 9999) && (1 <=? month d) && (month d <=? 12)
  && (1 <=? day d) && (day d <=? days_in_month (year d) (month d))
  && (0 <=? hour d) && (hour d <? 24) && (0 <=? minute d) && (minute d <? 60)
  && (0 <=? second d) && (second d <? 60)
  && (0 <=? microsecond d) && (microsecond d <? 1000000).

(** [d.isoformat()] of a datetime: [YYYY-MM-DDTHH:MM:SS], the
    microseconds when they are not zero, the offset when there is one. *)
Definition isoformat_offset (o : Z) : string :=
  (if o <? 0 then "-" else "+")
  ++ zero_pad 2 (Z.abs o / 60) ++ ":" ++ zero_pad 2 (Z.abs o mod 60).

Definition isoformat_wall (d : datetime) : string :=
  zero_pad 4 (year d) ++ "-" ++ zero_pad 2 (month d) ++ "-"
  ++ zero_pad 2 (day d) ++ "T" ++ zero_pad 2 (hour d) ++ ":"
  ++ zero_pad 2 (minute d) ++ ":" ++ zero_pad 2 (second d)
  ++ (if microsecond d =? 0 then "" else "." ++ zero_pad 6 (microsecond d)).

Definition isoformat (d : tz_datetime) : string :=
  isoformat_wall (wall d)
  ++ match utcoffset d with
     | None => ""
     | Some o => isoformat_offset o
     end.

(** [datetime.fromisoformat] on the strings [isoformat] emits; anything
    else is a [ValueError]. *)
Definition parse_fraction (s : string) : option (Z * string) :=
  match s with
  | String "." s' => parse_digits 6 0 s'
  | _ => Some (0, s)
  end.

Definition parse_offset (s : string) : option (option Z) :=
  match s with
  | EmptyString => Some None
  | String sign s1 =>
      match (if Ascii.eqb sign "+" then Some 1
             else if Ascii.eqb sign "-" then Some (-1) else None) with
      | None => None
      | Some sg =>
          match parse_digits 2 0 s1 with
          | None => None
          | Some (hh, s2) =>
              match expect ":" s2 with
              | None => None
              | Some s3 =>
                  match parse_digits 2 0 s3 with
                  | Some (mm, EmptyString) =>
                      if (hh <? 24) && (mm <? 60)
                      then Some (Some (sg * (hh * 60 + mm))) else None
                  | _ => None
                  end
              end
          end
      end
  end.

Definition option_bind {A B} (o : option A) (f : A -> option B) : option B :=
  match o with
  | Some a => f a
  | None => None
  end.

Definition parse_isoformat (s : string) : option tz_datetime :=
  option_bind (parse_digits 4 0 s) (fun '(y, s) =>
  option_bind (expect "-" s) (fun s =>
  option_bind (parse_digits 2 0 s) (fun '(mo, s) =>
  option_bind (expect "-" s) (fun s =>
  option_bind (parse_digits 2 0 s) (fun '(d, s) =>
  option_bind (expect "T" s) (fun s =>
  option_bind (parse_digits 2 0 s) (fun '(h, s) =>
  option_bind (expect ":" s) (fun s =>
  option_bind (parse_digits 2 0 s) (fun '(mi, s) =>
  option_bind (expect ":" s) (fun s =>
  option_bind (parse_digits 2 0 s) (fun '(sec, s) =>
  option_bind (parse_fraction s) (fun '(us, s) =>
  option_bind (parse_offset s) (fun off =>
    let w := {| year := y; month := mo; day := d; hour := h;
                minute := mi; second := sec; microsecond := us |} in
    if valid_datetimeb w then Some {| wall := w; utcoffset := off |}
    else None))))))))))))).

Definition fromisoformat (s : string) : outcome tz_datetime :=
  match parse_isoformat s with
  | Some d => Returns d
  | None => Raises (PyExc ValueError "Invalid isoformat string")
  end.

(** Days from 1970-01-01 to a date of the proleptic Gregorian calendar,
    and back. *)
Definition days_from_civil (y m d : Z) : Z :=
  let y := if m <=? 2 then y - 1 else y in
  let era := y / 400 in
  let yoe := y - era * 400 in
  let doy := (153 * (if 2 <? m then m - 3 else m + 9) + 2) / 5 + d - 1 in
  let doe := yoe * 365 + yoe / 4 - yoe / 100 + doy in
  era * 146097 + doe - 719468.

Definition civil_from_days (z : Z) : Z * Z * Z :=
  let z := z + 719468 in
  let era := z / 146097 in
  let doe := z - era * 146097 in
  let yoe := (doe - doe / 1460 + doe / 36524 - doe / 146096) / 365 in
  let doy := doe - (365 * yoe + yoe / 4 - yoe / 100) in
  let mp := (5 * doy + 2) / 153 in
  let d := doy - (153 * mp + 2) / 5 + 1 in
  let m := if mp <? 10 then mp + 3 else mp - 9 in
  ((if m <=? 2 then yoe + era * 400 + 1 else yoe + era * 400), m, d).

(** The wall clock moved by [delta] minutes. *)
Definition add_minutes (d : datetime) (delta : Z) : datetime :=
  let total := (days_from_civil (year d) (month d) (day d) * 24 + hour d) * 60
               + minute d + delta in
  let '(y, m, dd) := civil_from_days (total / 1440) in
  {| year := y; month := m; day := dd;
     hour := (total mod 1440) / 60; minute := total mod 60;
     second := second d; microsecond := microsecond d |}.

(** [d.astimezone(timezone.utc)]: the same instant on the UTC wall clock.
    A naive value is read in the local zone, whose offset is [local]. *)
Definition astimezone_utc (local : Z) (d : tz_datetime) : outcome tz_datetime :=
  let o := match utcoffset d with Some o => o | None => local end in
  let w := if o =? 0 then wall d else add_minutes (wall d) (- o) in
  if (1 <=? year w) && (year w <=? 9999)
  then Returns {| wall := w; utcoffset := Some 0 |}
  else Raises (PyExc ValueError "date value out of range").

(** [d.strftime("%Y-%m-%d")], for the years of four digits. *)
Definition strftime_Y_m_d (d : tz_datetime) : string :=
  zero_pad 4 (year (wall d)) ++ "-" ++ zero_pad 2 (month (wall d)) ++ "-"
  ++ zero_pad 2 (day (wall d)).

(** ** The outside world *)

(** The two [genai.GenerativeModel(config.MODEL_NAME)] objects of the
    package: [translation_utils.translation_model] and
    [chatbot_utils.llm_model]. *)
Inductive model_obj : Type := translation_model | llm_model.

(** A numpy array of float32 rows, each value by its bit pattern. *)
Definition ndarray := list (list Z).

(** The loaded FAISS index; its vectors stay inside the library, the
    search is the oracle [index_search]. *)
Record faiss_Index : Type := { ntotal : Z }.

(** A decoded [PIL.Image], named by the bytes it was opened from. *)
Record PIL_Image : Type := { source : bytes }.

(** A [pydub.AudioSegment] with its WAV export. *)
Record AudioSegment : Type :=
  { frame_rate : Z; channels : Z; wav_export : bytes }.

(** A [requests.Response]: the status code and what [.json()] gives. *)
Record Response : Type :=
  { status_code_of : Z; json_of : outcome pyval }.

Inductive event : Type :=
| Call_translate_text (text src dest : string)
| GenerateContent (m : model_obj) (prompt : string)
| ImageOpen (image_bytes : bytes)
| GenerateContentImage (m : model_obj) (prompt : string) (image : PIL_Image)
| EmbedContent (model : string) (content : list string)
| IndexSearch (index : faiss_Index) (x : ndarray) (k : Z)
| StructuredInvoke (prompt : string)
| HttpRequest (method url : string) (json : option pyval) (timeout : option Z)
| FetchWeather (village : pyval)
| AudioFromFile (audio_bytes : bytes)
| SpeechRecognize (language_code : string) (sample_rate_hertz : Z)
    (audio_channel_count : Z) (content : bytes)
| DatetimeNow.

Definition trace := list event.

(** [Call_translate_text] records that [translate_text] was entered; every
    other event is a call that leaves the process. *)
Definition external (ev : event) : bool :=
  match ev with
  | Call_translate_text _ _ _ => false
  | _ => true
  end.

Definition is_Call_translate_text (ev : event) : bool := negb (external ev).

(** [main.app_state] as the lifespan handler leaves it: the speech client
    if the credentials loaded, the index and documents if both files were
    read. *)
Record AppState : Type :=
  { speech_client : bool;
    faiss_index_docs : option (faiss_Index * list string) }.

Record World : Type :=
  { (* [model.generate_content(prompt).text] *)
    generate_content : trace -> model_obj -> string -> outcome string;
    (* [Image.open(io.BytesIO(image_bytes))] *)
    image_open : trace -> bytes -> outcome PIL_Image;
    (* [model.generate_content([prompt, image]).text] *)
    generate_content_image :
      trace -> model_obj -> string -> PIL_Image -> outcome string;
    (* [np.array(genai.embed_content(model, content)['embedding'])] *)
    embed_content : trace -> string -> list string -> outcome ndarray;
    (* [index.search(x, k)]: the distances and the labels, a row a query *)
    index_search :
      trace -> faiss_Index -> ndarray -> Z -> outcome (ndarray * list (list Z));
    (* [structured_llm.invoke(prompt)] of ml_utils, as a dict *)
    structured_invoke : trace -> string -> outcome pyval;
    (* [requests.get] / [requests.post] *)
    http_request :
      trace -> string -> string -> option pyval -> option Z -> outcome Response;
    (* [utils.api_utils.fetch_weather], a module the sources do not hold *)
    fetch_weather_result : trace -> pyval -> outcome pyval;
    (* [AudioSegment.from_file(io.BytesIO(audio_bytes))] and its export *)
    audio_from_file : trace -> bytes -> outcome AudioSegment;
    (* [client.recognize(config, audio).results]: per result, the
       transcripts of its alternatives *)
    speech_recognize :
      trace -> string -> Z -> Z -> bytes -> outcome (list (list string));
    (* [datetime.now(timezone.utc)] *)
    datetime_now : trace -> datetime;
    (* the offset of the local zone in minutes, where a naive datetime is
       converted *)
    local_utcoffset : Z;
    (* [os.environ.get("API_BASE_URL")] *)
    env_API_BASE_URL : option string;
    (* [str(v)] of a Python value that is not a string *)
    py_str : pyval -> string;
    app_state : AppState }.

(** ** Computations: a trace and an outcome *)

Definition M (A : Type) : Type := trace -> outcome A * trace.

Definition ret {A} (a : A) : M A := fun t => (Returns a, t).

Definition raise {A} (e : exn) : M A := fun t => (Raises e, t).

Definition bind {A B} (m : M A) (f : A -> M B) : M B :=
  fun t =>
    match m t with
    | (Returns a, t') => f a t'
    | (Raises e, t') => (Raises e, t')
    end.

Notation "x <- m ;; k" := (bind m (fun x => k))
  (at level 61, m at next level, right associativity).
Notation "m ;;; k" := (bind m (fun _ => k))
  (at level 61, right associativity).

(** [try: body  except <catches> as e: handler e]. *)
Definition try_except {A} (body : M A) (catches : exn -> bool)
  (handler : exn -> M A) : M A :=
  fun t =>
    match body t with
    | (Raises e, t') => if catches e then handler e t' else (Raises e, t')
    | r => r
    end.

(** A call that leaves the process: the oracle answers from the trace so
    far, and the call is appended to it. *)
Definition call {A} (ev : event) (answer : trace -> outcome A) : M A :=
  fun t => (answer t, (t ++ [ev])%list).

(** A pure step that may raise. *)
Definition lift {A} (r : outcome A) : M A := fun t => (r, t).

Definition record_call (ev : event) : M unit :=
  fun t => (Returns tt, (t ++ [ev])%list).

Section Pipeline.

Variable W : World.

(** [{v}] inside an f-string: a string as it is, any other value by its
    [str] form. *)
Definition format_value (v : pyval) : string :=
  match v with
  | PStr s => s
  | _ => py_str W v
  end.

(** ** utils/translation_utils.py *)

Definition translate_prompt (src_lang_name dest_lang_name text : string)
  : string :=
  "Translate the following text from " ++ src_lang_name ++ " to "
  ++ dest_lang_name ++ ". Respond with only the translated text:"
  ++ LF ++ LF ++ text.

Definition translate_text (text src dest : string) : M string :=
  record_call (Call_translate_text text src dest) ;;;
  let src_lang_name := str_dict_get SUPPORTED_LANGUAGES src src in
  let dest_lang_name := str_dict_get SUPPORTED_LANGUAGES dest dest in
  try_except
    (if String.eqb src dest then ret text
     else
       let prompt := translate_prompt src_lang_name dest_lang_name text in
       response_text <- call (GenerateContent translation_model prompt)
                          (fun t => generate_content W t translation_model prompt) ;;
       let translated_text := strip response_text in
       ret translated_text)
    except_Exception
    (fun e => ret "Translation Error").

(** ** utils/rag_utils.py *)

Definition embed_texts (texts : list string) : M ndarray :=
  try_except
    (call (EmbedContent EMBEDDING_MODEL texts)
       (fun t => embed_content W t EMBEDDING_MODEL texts))
    except_Exception
    (fun e => raise e).

(** [[docs[i] for i in labels if i < len(docs)]]: the labels are taken in
    order, and the first [docs[i]] that raises ends the comprehension. *)
Fixpoint relevant_docs_of (docs : list string) (labels : list Z)
  : outcome (list string) :=
  match labels with
  | [] => Returns []
  | i :: rest =>
      if i <? Z.of_nat (List.length docs) then
        match list_getitem docs i with
        | Raises e => Raises e
        | Returns d =>
            match relevant_docs_of docs rest with
            | Raises e => Raises e
            | Returns ds => Returns (d :: ds)
            end
        end
      else relevant_docs_of docs rest
  end.

Definition docs_separator : string := LF ++ "---" ++ LF.

Definition retrieval_error : string :=
  "Error: Could not retrieve relevant context.".

Definition rag_retrieve (query : string) (index : faiss_Index)
  (docs : list string) (k : Z) : M string :=
  try_except
    (query_embedding <- embed_texts [query] ;;
     found <- call (IndexSearch index query_embedding k)
                (fun t => index_search W t index query_embedding k) ;;
     let '(distances, indices) := found in
     row <- lift (list_getitem indices 0) ;;
     relevant_docs <- lift (relevant_docs_of docs row) ;;
     let context := join docs_separator relevant_docs in
     ret context)
    except_Exception
    (fun e => ret retrieval_error).

(** ** utils/chatbot_utils.py *)

Definition image_prompt : string :=
  "Analyze this image from a farm. Describe crop health, visible pests, diseases, or soil conditions. Be factual, concise, and respond in English.".

Definition image_fallback : string := "Could not analyze the uploaded image.".

Definition analyze_image_with_gemini (image_bytes : bytes) : M string :=
  try_except
    (image <- call (ImageOpen image_bytes)
                (fun t => image_open W t image_bytes) ;;
     response_text <- call (GenerateContentImage llm_model image_prompt image)
                        (fun t => generate_content_image W t llm_model
                                    image_prompt image) ;;
     ret (strip response_text))
    except_Exception
    (fun e => ret image_fallback).

Definition chat_prompt (native_language_name profile predictions
  image_analysis rag_context eng_query : string) : string :=
  LF
  ++ "    You are 'Krishi Sakhi', an AI farming assistant. Your final response MUST be in "
  ++ native_language_name ++ "." ++ LF
  ++ "    Analyze all the following information to provide a helpful and actionable solution. For every statement or recommendation you make, provide the reasoning behind it based on the user's context."
  ++ LF ++ LF
  ++ "    Farmer's Profile: " ++ profile ++ LF
  ++ "    Today's Predictions: " ++ predictions ++ LF
  ++ "    Analysis of Uploaded Image: " ++ image_analysis ++ LF
  ++ "    Relevant Knowledge (in English): " ++ rag_context ++ LF
  ++ "    Farmer's Question (translated to English): " ++ DQ ++ eng_query ++ DQ
  ++ LF ++ LF
  ++ "    Based on all the above information, provide a comprehensive answer in "
  ++ native_language_name ++ "." ++ LF
  ++ "    " ++ LF
  ++ "    The answer has to be to the point only answering the given "
  ++ eng_query
  ++ " question only. No extra information. Only answer the asked question and give a small to the point reasoning for the same no extra analysis. Provide everything in proper markdown."
  ++ LF ++ "    ".

Definition process_chat_query (query : string) (profile predictions : pyval)
  (faiss_index : faiss_Index) (docs : list string) (language : string)
  (image_bytes : option bytes) : M string :=
  eng_query <- translate_text query language "en" ;;
  let native_language_name :=
    str_dict_get SUPPORTED_LANGUAGES language language in
  image_analysis <- match image_bytes with
                    | Some (b :: bs) => analyze_image_with_gemini (b :: bs)
                    | _ => ret "No image provided."
                    end ;;
  rag_context <- rag_retrieve eng_query faiss_index docs 3 ;;
  let prompt :=
    chat_prompt native_language_name (format_value profile)
      (format_value predictions)
      image_analysis rag_context eng_query in
  call (GenerateContent llm_model prompt)
    (fun t => generate_content W t llm_model prompt).

(** ** crud.py *)

Definition API_BASE_URL : string :=
  match env_API_BASE_URL W with
  | Some url => url
  | None => "https://farmvichardatabase.onrender.com/"
  end.

(** [requests.get(url, timeout=...)], [requests.post(url, json=...,
    timeout=...)]; [timeout] is [None] where the call passes none. *)
Definition requests_call (method url : string) (json : option pyval)
  (timeout : option Z) : M Response :=
  call (HttpRequest method url json timeout)
    (fun t => http_request W t method url json timeout).

(** [response.raise_for_status()]: an [HTTPError], which is a
    [RequestException], for the 4xx and 5xx codes. *)
Definition raise_for_status (r : Response) : outcome unit :=
  if (400 <=? status_code_of r) && (status_code_of r <? 600)
  then Raises (PyExc RequestException "HTTPError")
  else Returns tt.

Definition _make_api_request (method endpoint : string)
  (json_data : option pyval) : M pyval :=
  let url := API_BASE_URL ++ endpoint in
  try_except
    (response <-
       (if String.eqb (upper method) "GET"
        then requests_call "GET" url None (Some 15)
        else if String.eqb (upper method) "POST"
        then requests_call "POST" url json_data (Some 15)
        else raise (PyExc ValueError "Unsupported HTTP method")) ;;
     lift (raise_for_status response) ;;;
     lift (json_of response))
    except_RequestException
    (fun e => ret PNone).

Definition get_user_profile (user_id : string) : M pyval :=
  farms <- _make_api_request "GET" ("/api/users/" ++ user_id ++ "/farms/") None ;;
  match farms with
  | PList (primary_farm :: _) => ret primary_farm
  | _ => ret PNone
  end.

Definition save_log_entry (farm_id : string) (log_data : pyval) : M pyval :=
  _make_api_request "POST" ("/api/farms/" ++ farm_id ++ "/activities")
    (Some log_data).

(** ** utils/ml_utils.py *)

(** [v.get(key, default)]; only a dict has the method. *)
Definition py_get (v : pyval) (key : string) (default : pyval) : outcome pyval :=
  match v with
  | PDict d =>
      Returns (match entries_get d key with Some x => x | None => default end)
  | _ => Raises (PyExc AttributeError "object has no attribute 'get'")
  end.

(** [{v.get(key, default)}] inside an f-string. *)
Definition fmt_get (v : pyval) (key : string) (default : pyval) : M string :=
  x <- lift (py_get v key default) ;; ret (format_value x).

Definition degree_sign : string :=
  String (ascii_of_nat 194) (String (ascii_of_nat 176) EmptyString).

Definition dashboard_prompt (profile weather : pyval) : M string :=
  let na := PStr "N/A" in
  state <- fmt_get profile "state" na ;;
  district <- fmt_get profile "district" na ;;
  primary_crop <- fmt_get profile "primary_crop" na ;;
  soil_ph <- fmt_get profile "soil_ph" na ;;
  soil_N <- fmt_get profile "soil_N" na ;;
  soil_P <- fmt_get profile "soil_P" na ;;
  soil_K <- fmt_get profile "soil_K" na ;;
  experience <- fmt_get profile "farming_experience_years" na ;;
  pests <- fmt_get profile "past_pest_disease_issues" (PStr "None mentioned") ;;
  schemes <- fmt_get profile "participation_in_govt_schemes"
               (PList [PStr "None"]) ;;
  temperature <- fmt_get weather "temperature" na ;;
  condition <- fmt_get weather "weather" na ;;
  humidity <- fmt_get weather "humidity" na ;;
  ret (LF
    ++ "    You are an expert agricultural analyst for India. Based on the following farmer profile and real-time weather, generate a complete, structured dashboard report."
    ++ LF ++ LF
    ++ "    **Farmer Profile:**" ++ LF
    ++ "    - State: " ++ state ++ LF
    ++ "    - District: " ++ district ++ LF
    ++ "    - Primary Crop: " ++ primary_crop ++ LF
    ++ "    - Soil pH: " ++ soil_ph ++ LF
    ++ "    - Soil Nutrients (N,P,K in kg/ha): " ++ soil_N ++ ", " ++ soil_P
    ++ ", " ++ soil_K ++ LF
    ++ "    - Farming Experience: " ++ experience ++ " years" ++ LF
    ++ "    - Past Pest Issues: " ++ pests ++ LF
    ++ "    - Government Schemes Applied For: " ++ schemes ++ LF ++ LF
    ++ "    **Real-Time Weather Data:**" ++ LF
    ++ "    - Temperature: " ++ temperature ++ degree_sign ++ "C" ++ LF
    ++ "    - Condition: " ++ condition ++ LF
    ++ "    - Humidity: " ++ humidity ++ "%" ++ LF ++ LF
    ++ "    **Your Tasks:**" ++ LF
    ++ "    1.  **Crop Recommendation**: Recommend the single best crop for the next planting season." ++ LF
    ++ "    2.  **Yield Prediction**: Predict the yield in kg/acre for their current primary crop." ++ LF
    ++ "    3.  **Pest Risk**: Predict the pest risk as a percentage from 0 to 100." ++ LF
    ++ "    4.  **Quality Grading**: Estimate a " ++ DQ ++ "Quality Grading Score" ++ DQ ++ " from 0 to 100." ++ LF
    ++ "    5.  **Price Range**: Provide an estimated market price range (min and max) per quintal for their primary crop in their district." ++ LF
    ++ "    6.  **Scheme Analysis**: List relevant government schemes they are likely eligible for, and also list the ones they've already applied for from their profile." ++ LF
    ++ "    ").

Definition default_predictions (profile : pyval) : M pyval :=
  primary_crop <- lift (py_get profile "primary_crop" (PStr "N/A")) ;;
  applied <- lift (py_get profile "participation_in_govt_schemes" (PList [])) ;;
  ret (PDict
         [ ("recommended_crop", PStr "Rice");
           ("yield_prediction_kg_acre", PFloat 1500 1);
           ("pest_risk_percent", PInt 40);
           ("quality_grading_score", PInt 75);
           ("price_range_per_quintal",
             PDict [ ("crop_name", primary_crop); ("min_price", PInt 2000);
                     ("max_price", PInt 2200) ]);
           ("applicable_schemes", PList [PStr "PM-KISAN"]);
           ("applied_schemes", applied) ]).

Definition get_dashboard_predictions (profile weather : pyval) : M pyval :=
  prompt <- dashboard_prompt profile weather ;;
  try_except
    (call (StructuredInvoke prompt) (fun t => structured_invoke W t prompt))
    except_Exception
    (fun e => default_predictions profile).

(** ** main.py *)

Definition transcribe_audio_with_google (audio_bytes : bytes)
  (language_code : string) : M string :=
  if negb (speech_client (app_state W))
  then raise (HTTPException 503 "Speech client not initialized.")
  else
    try_except
      (audio_segment <- call (AudioFromFile audio_bytes)
                          (fun t => audio_from_file W t audio_bytes) ;;
       let sample_rate := frame_rate audio_segment in
       let channels := channels audio_segment in
       let content := wav_export audio_segment in
       let language := language_code ++ "-IN" in
       results <- call (SpeechRecognize language sample_rate channels content)
                    (fun t => speech_recognize W t language sample_rate
                                channels content) ;;
       match results with
       | [] => ret ""
       | _ =>
           alternatives <- lift (list_getitem results 0) ;;
           transcript <- lift (list_getitem alternatives 0) ;;
           ret transcript
       end)
      except_Exception
      (fun e =>
         raise (HTTPException 500
                  ("Failed to transcribe audio: "
                   ++ match e with
                      | PyExc _ msg => msg
                      | HTTPException code detail =>
                          format_value (PInt code) ++ ": " ++ detail
                      end))).

Definition now_utc : M tz_datetime :=
  call DatetimeNow
    (fun t => Returns {| wall := datetime_now W t; utcoffset := Some 0 |}).

(** [datetime.now(timezone.utc).isoformat().replace("+00:00", "Z")]. *)
Definition utc_timestamp : M string :=
  now <- now_utc ;; ret (replace "+00:00" "Z" (isoformat now)).

Definition generate_structured_log (transcribed_text farm_id : string)
  : M (list (string * pyval)) :=
  timestamp <- utc_timestamp ;;
  ret [ ("farmId", PStr farm_id);
        ("activityType", PStr "general");
        ("description", PStr transcribed_text);
        ("geoLocation", PDict [("lat", PInt 0); ("lng", PInt 0)]);
        ("id", PNone);
        ("timestamp", PStr timestamp) ].

(** The response models of schemas.py. *)
Record ChatResponse : Type :=
  { response_text : string; transcribed_text : option string }.

Record LogEntry : Type :=
  { notes : string;
    log_type : option string;
    date : option string;
    crop_name : option string;
    summary : option string;
    details : option (list (string * pyval)) }.

Record VoiceLogResponse : Type :=
  { voice_transcribed_text : string; structured_log : LogEntry }.

Record Alert : Type :=
  { alert_id : string; severity : string; title : string; message : string;
    suggestion : string }.

(** What pydantic accepts for a field of type [str], [Optional[str]] and
    [Optional[Dict[str, Any]]]. *)
Definition validation_error : exn :=
  PyExc ValidationError "validation error".

Definition as_str (v : pyval) : outcome string :=
  match v with
  | PStr s => Returns s
  | _ => Raises validation_error
  end.

Definition as_optional_str (v : pyval) : outcome (option string) :=
  match v with
  | PNone => Returns None
  | PStr s => Returns (Some s)
  | _ => Raises validation_error
  end.

Definition as_optional_dict (v : pyval)
  : outcome (option (list (string * pyval))) :=
  match v with
  | PNone => Returns None
  | PDict d => Returns (Some d)
  | _ => Raises validation_error
  end.

Definition entries_get_default (d : list (string * pyval)) (key : string)
  (default : pyval) : pyval :=
  match entries_get d key with
  | Some v => v
  | None => default
  end.

(** [translate_text(text, src=v, dest=dest)] for a source language read
    from the profile.  A string is passed as it is.  A list or a dict
    cannot be looked up in [SUPPORTED_LANGUAGES] and raises [TypeError] at
    the first line of the function; any other value is no key of the
    table and differs from [dest], and the function goes on with its
    [str] form as the language name. *)
Definition translate_text_from (text : string) (src : pyval) (dest : string)
  : M string :=
  match src with
  | PStr s => translate_text text s dest
  | PList _ | PDict _ =>
      record_call (Call_translate_text text (format_value src) dest) ;;;
      raise (PyExc TypeError "unhashable type")
  | _ => translate_text text (format_value src) dest
  end.

(** [POST /chat/{user_id}].  An uploaded file is given by its bytes. *)
Definition chat_with_assistant (user_id : string) (text_query : option string)
  (language_code : string) (image_file audio_file : option bytes)
  : M ChatResponse :=
  profile <- get_user_profile user_id ;;
  if negb (truthy profile)
  then raise (HTTPException 404 "User profile not found.")
  else
    source_language <- lift (py_get profile "preferredLanguage" (PStr "en")) ;;
    heard <- match audio_file with
             | Some audio_bytes =>
                 transcribed_text <-
                   transcribe_audio_with_google audio_bytes
                     (format_value source_language) ;;
                 user_query <-
                   translate_text_from transcribed_text source_language "en" ;;
                 ret (Some user_query, Some transcribed_text)
             | None => ret (text_query, None)
             end ;;
    let '(user_query, transcribed_text) := heard in
    match user_query with
    | None | Some EmptyString => raise (HTTPException 400 "No query provided.")
    | Some user_query =>
        let image_bytes := image_file in
        village <- lift (py_get profile "village" (PStr "")) ;;
        weather_data <- call (FetchWeather village)
                          (fun t => fetch_weather_result W t village) ;;
        predictions <- get_dashboard_predictions profile weather_data ;;
        loaded <- match faiss_index_docs (app_state W) with
                  | Some loaded => ret loaded
                  | None => raise (PyExc KeyError "'faiss_index'")
                  end ;;
        let '(faiss_index, docs) := loaded in
        english_response <-
          process_chat_query user_query profile predictions faiss_index docs
            "en" image_bytes ;;
        final_response_text <-
          translate_text english_response "en" language_code ;;
        ret {| response_text := final_response_text;
               transcribed_text := transcribed_text |}
    end.

(** What [POST /logs/voice/{farm_id}] answers: the dict
    [{"status": ..., "reason": ...}] or the response model. *)
Inductive voice_log_reply : Type :=
| Skipped (status reason : string)
| Logged (response : VoiceLogResponse).

Definition dict_getitem (d : list (string * pyval)) (key : string)
  : outcome pyval :=
  match entries_get d key with
  | Some v => Returns v
  | None => Raises (PyExc KeyError key)
  end.

(** [s.replace(old, new)] on a value that has to be a string. *)
Definition py_replace (v : pyval) (old new : string) : outcome string :=
  match v with
  | PStr s => Returns (replace old new s)
  | _ => Raises (PyExc AttributeError "object has no attribute 'replace'")
  end.

Definition create_log_from_voice (farm_id : string) (audio_file : bytes)
  (language_code : string) : M voice_log_reply :=
  let audio_bytes := audio_file in
  match audio_bytes with
  | [] => ret (Skipped "skipped" "Empty audio file")
  | _ =>
      transcribed_text <-
        transcribe_audio_with_google audio_bytes language_code ;;
      if String.eqb transcribed_text ""
      then ret (Skipped "skipped" "No transcription result")
      else
        generated <-
          try_except
            (api_log <- generate_structured_log transcribed_text farm_id ;;
             ret (Some api_log))
            except_Exception
            (fun e => ret None) ;;
        match generated with
        | None => ret (Skipped "skipped" "Log generation failed")
        | Some api_log =>
            timestamp <- utc_timestamp ;;
            let api_log := entries_set api_log "timestamp" (PStr timestamp) in
            saved_log_response <- save_log_entry farm_id (PDict api_log) ;;
            if negb (truthy saved_log_response)
            then raise (HTTPException 500
                          "Failed to save log entry to the database.")
            else
              stamp <- lift (dict_getitem api_log "timestamp") ;;
              iso <- lift (py_replace stamp "Z" "+00:00") ;;
              parsed <- lift (fromisoformat iso) ;;
              in_utc <- lift (astimezone_utc (local_utcoffset W) parsed) ;;
              let date_str := strftime_Y_m_d in_utc in
              notes_v <- lift (as_str (entries_get_default api_log
                                         "description" (PStr ""))) ;;
              log_type_v <- lift (as_optional_str
                                    (entries_get_default api_log
                                       "activityType" (PStr ""))) ;;
              summary_v <- lift (as_optional_str
                                   (entries_get_default api_log
                                      "description" (PStr ""))) ;;
              details_v <- lift (as_optional_dict
                                   (entries_get_default api_log
                                      "details" (PDict []))) ;;
              ret (Logged
                     {| voice_transcribed_text := transcribed_text;
                        structured_log :=
                          {| notes := notes_v;
                             log_type := log_type_v;
                             date := Some date_str;
                             crop_name := None;
                             summary := summary_v;
                             details := details_v |} |})
        end
  end.

(** [for a in raw_alerts]: the items of a list, the keys of a dict, the
    characters of a string; nothing else can be iterated. *)
Definition py_iter (v : pyval) : outcome (list pyval) :=
  match v with
  | PList items => Returns items
  | PDict entries => Returns (map (fun kv => PStr (fst kv)) entries)
  | PStr s =>
      Returns (map (fun c => PStr (String c EmptyString))
                 (list_ascii_of_string s))
  | _ => Raises (PyExc TypeError "object is not iterable")
  end.

Definition required_str (d : list (string * pyval)) (key : string)
  : outcome string :=
  match entries_get d key with
  | Some v => as_str v
  | None => Raises validation_error
  end.

(** [schemas.Alert] built from the entries of the mapping [a]. *)
Definition Alert_from (a : pyval) : outcome Alert :=
  match a with
  | PDict d =>
      match required_str d "id", required_str d "severity",
            required_str d "title", required_str d "message",
            required_str d "suggestion" with
      | Returns i, Returns sv, Returns ti, Returns m, Returns sg =>
          Returns {| alert_id := i; severity := sv; title := ti;
                     message := m; suggestion := sg |}
      | _, _, _, _, _ => Raises validation_error
      end
  | _ => Raises (PyExc TypeError "argument after ** must be a mapping")
  end.

(** [GET /alerts/{user_id}]. *)
Definition get_proactive_alerts (user_id : string) : M (list Alert) :=
  response <- requests_call "GET"
                (API_BASE_URL ++ "/api/users/" ++ user_id ++ "/alerts/")
                None None ;;
  raw_alerts <- lift (json_of response) ;;
  items <- lift (py_iter raw_alerts) ;;
  ret (flat_map (fun a => match Alert_from a with
                          | Returns alert => [alert]
                          | Raises _ => []
                          end) items).

End Pipeline.

(** ** Reading a retrieved context

    [built_from docs positions context]: the context is the documents at
    the neighbour [positions], joined by the separator; each position is
    below the document count and names a document of the list. *)
Definition doc_at (docs : list string) (i : Z) : string :=
  nth (Z.to_nat (list_position docs i)) docs "".

Definition built_from (docs : list string) (positions : list Z)
  (context : string) : Prop :=
  Forall (fun i => i < Z.of_nat (List.length docs)
                   /\ 0 <= list_position docs i < Z.of_nat (List.length docs))
    positions
  /\ context = join docs_separator (map (doc_at docs) positions).

(** What the FAISS search promises: for a query of one row, a label matrix
    whose rows hold [k] labels each, a label being a position of the index
    or [-1] where fewer than [k] neighbours exist. *)
Definition search_gives_k_labels (W : World) : Prop :=
  forall t index x k D I,
    index_search W t index x k = Returns (D, I) ->
    Forall (fun row => Z.of_nat (List.length row) = k) I.

Definition search_labels_in_index (W : World) : Prop :=
  forall t index x k D I,
    index_search W t index x k = Returns (D, I) ->
    Forall (Forall (fun i => -1 <= i < ntotal index)) I.

(** [contains s part]: [part] occurs in [s]. *)
Definition contains (s part : string) : Prop :=
  exists before after, s = before ++ part ++ after.

(** The marker that opens the retrieval error text. *)
Definition error_marker : string := "Error".

(** ** Worlds for the examples *)

Definition unavailable : exn := PyExc RuntimeError "service unavailable".

(** A world given by what each service answers, whatever the trace. *)
Definition scripted_world
  (generate : model_obj -> string -> outcome string)
  (embed : outcome ndarray)
  (search : faiss_Index -> Z -> outcome (ndarray * list (list Z)))
  (http : string -> string -> outcome Response)
  (recognize : outcome (list (list string)))
  (clock : datetime)
  (state : AppState) : World :=
  {| generate_content := fun _ m prompt => generate m prompt;
     image_open := fun _ image_bytes => Returns {| source := image_bytes |};
     generate_content_image := fun _ m prompt _ => generate m prompt;
     embed_content := fun _ _ _ => embed;
     index_search := fun _ index _ k => search index k;
     structured_invoke := fun _ _ => Raises unavailable;
     http_request := fun _ method url _ _ => http method url;
     fetch_weather_result := fun _ _ => Returns (PDict [("temperature", PInt 29)]);
     audio_from_file := fun _ audio_bytes =>
       Returns {| frame_rate := 16000; channels := 1;
                  wav_export := audio_bytes |};
     speech_recognize := fun _ _ _ _ _ => recognize;
     datetime_now := fun _ => clock;
     local_utcoffset := 330;
     env_API_BASE_URL := None;
     py_str := fun _ => "<value>";
     app_state := state |}.

Definition demo_index : faiss_Index := {| ntotal := 10 |}.

Definition demo_docs : list string :=
  [ "doc0"; "doc1"; "doc2"; "doc3"; "doc4"; "doc5"; "doc6"; "doc7" ].

Definition demo_state : AppState :=
  {| speech_client := true;
     faiss_index_docs := Some (demo_index, demo_docs) |}.

Definition demo_clock : datetime :=
  {| year := 2025; month := 9; day := 20; hour := 18; minute := 45;
     second := 7; microsecond := 250000 |}.

Definition demo_profile : pyval :=
  PDict [ ("id", PStr "farm_1"); ("village", PStr "Alappuzha");
          ("primary_crop", PStr "Paddy"); ("preferredLanguage", PStr "hi") ].

(** The backend answers the farm list of a user and takes activity logs. *)
Definition demo_http (method url : string) : outcome Response :=
  if String.eqb method "GET"
  then Returns {| status_code_of := 200;
                  json_of := Returns (PList [demo_profile]) |}
  else Returns {| status_code_of := 201;
                  json_of := Returns (PDict [("id", PStr "log_1")]) |}.

(** A search that answers three labels on an index of ten vectors: one
    beyond the eight documents, one inside, and the padding label. *)
Definition demo_search (index : faiss_Index) (k : Z)
  : outcome (ndarray * list (list Z)) :=
  if (k =? 3) && (ntotal index =? 10)
  then Returns ([[0; 0; 0]], [[9; 3; -1]])
  else Raises (PyExc AssertionError "").

Definition demo_answer : string := "Use pheromone traps.".

(** A generative model that answers every prompt with the same sentence,
    the translation prompt included. *)
Definition echo_generate (m : model_obj) (prompt : string) : outcome string :=
  Returns demo_answer.

Definition demo_notes : string :=
  "Applied 50kg of Urea to the paddy crop today".

Definition echo_world : World :=
  scripted_world echo_generate (Returns [[0]]) demo_search demo_http
    (Returns [[demo_notes]]) demo_clock demo_state.

(** Every service is down and nothing was loaded at startup. *)
Definition down_world : World :=
  scripted_world (fun _ _ => Raises unavailable) (Raises unavailable)
    (fun _ _ => Raises unavailable)
    (fun _ _ => Raises (PyExc RequestException "ConnectTimeout"))
    (Raises unavailable) demo_clock
    {| speech_client := false; faiss_index_docs := None |}.

(** The embedding service answers and the index search fails. *)
Definition search_down_world : World :=
  scripted_world echo_generate (Returns [[0]])
    (fun _ _ => Raises unavailable) demo_http (Returns []) demo_clock
    demo_state.

(** The speech service hears nothing. *)
Definition silent_world : World :=
  scripted_world echo_generate (Returns [[0]]) demo_search demo_http
    (Returns []) demo_clock demo_state.

Definition demo_query : string := "How to manage stem borer in my rice crop?".

(** ** Reading a trace *)

(** [adds m P]: whatever the trace before, a run of [m] only appends
    events, and each appended event satisfies [P]. *)
Definition adds {A} (m : M A) (P : event -> Prop) : Prop :=
  forall t, exists evs, snd (m t) = (t ++ evs)%list /\ Forall P evs.

(** An HTTP request made with a timeout of 15 seconds. *)
Definition http_with_timeout_15 (ev : event) : Prop :=
  exists method url json, ev = HttpRequest method url json (Some 15).

(** Any event but an entry of [translate_text]. *)
Definition not_a_translation (ev : event) : Prop :=
  is_Call_translate_text ev = false.

(** The entries of [translate_text] in a trace, in order. *)
Definition translate_calls (t : trace) : list event :=
  filter is_Call_translate_text t.

(** The chat scenario as the specification words it: for a text query in
    the language [language_code] that gets a response, [translate_text] is
    entered twice, on the query towards English and on the English answer
    towards [language_code], and the final text differs from the English
    answer. *)
Definition chat_translates_in_and_out (W : World)
  (user_id query language_code : string) : Prop :=
  forall resp t',
    chat_with_assistant W user_id (Some query) language_code None None []
    = (Returns resp, t') ->
    exists src english,
      translate_calls t'
      = [ Call_translate_text query src "en";
          Call_translate_text english "en" language_code ]
      /\ response_text resp <> english.

(** [all_chars p s]: every character of [s] passes [p]. *)
Fixpoint all_chars (p : ascii -> bool) (s : string) : bool :=
  match s with
  | EmptyString => true
  | String c s' => p c && all_chars p s'
  end.

(** The characters of the date and time part of an ISO timestamp. *)
Definition iso_char (c : ascii) : bool :=
  match digit_value c with
  | Some _ => true
  | None => Ascii.eqb c "-" || Ascii.eqb c "T" || Ascii.eqb c ":"
            || Ascii.eqb c "."
  end.

(** The first bytes of a WAV file, for an upload that is not empty. *)
Definition demo_audio : bytes := [Byte.x52; Byte.x49; Byte.x46; Byte.x46].

(** The voice-log scenario as the specification words it: the record of a
    saved log has a log type, the crop of the profile, the current date
    and a map of details. *)
Definition voice_log_as_specified (W : World) (farm_id : string)
  (audio_file : bytes) (language_code crop today : string) : Prop :=
  forall response t',
    create_log_from_voice W farm_id audio_file language_code []
    = (Returns (Logged response), t') ->
    log_type (structured_log response) <> None
    /\ crop_name (structured_log response) = Some crop
    /\ date (structured_log response) = Some today
    /\ details (structured_log response) <> None.

(** ** The code around the claims: startup, the other endpoints

    [rag_utils.load_faiss_index] and [main.lifespan], which build
    [app_state]; the endpoints [create_log_entry] and
    [fill_form_field_with_voice] and the helper [save_log_to_api] of
    main.py; [api_client.get_user_profile] of the second service tree. *)

(** [s.split(sep)] for a separator that is not empty: the text is cut at
    the occurrences of [sep] found from the left, which do not overlap.
    [skip] counts the characters of a found separator still to drop,
    [piece] is the part read since the last cut. *)
Fixpoint split_from (sep : string) (skip : nat) (piece s : string)
  : list string :=
  match s with
  | EmptyString => [piece]
  | String c s' =>
      match skip with
      | S n => split_from sep n piece s'
      | O =>
          if String.prefix sep s
          then piece :: split_from sep (String.length sep - 1) EmptyString s'
          else split_from sep 0 (piece ++ String c EmptyString) s'
      end
  end.

Definition split (sep s : string) : list string :=
  split_from sep 0 EmptyString s.

(** The files the startup reads: [os.path.exists], [faiss.read_index] and
    the text of a file opened for reading. *)
Record Disk : Type :=
  { path_exists : string -> bool;
    faiss_read_index : string -> outcome faiss_Index;
    read_text : string -> outcome string }.

(** The pair [(index, docs)], or [None] for the pair [(None, None)]. *)
Definition load_faiss_index (disk : Disk) (index_path docs_path : string)
  : option (faiss_Index * list string) :=
  if negb (path_exists disk index_path) || negb (path_exists disk docs_path)
  then None
  else
    match faiss_read_index disk index_path with
    | Raises _ => None
    | Returns index =>
        match read_text disk docs_path with
        | Raises _ => None
        | Returns text => Some (index, split docs_separator text)
        end
    end.

(** config.py, with [os.path.join] on a POSIX system. *)
Definition VECTOR_DB_PATH : string := "vector_db/faiss_index.index".
Definition DOCS_PATH : string := "vector_db/docs.txt".

(** What the startup of [main.lifespan] finds: the environment variable
    [GOOGLE_APPLICATION_CREDENTIALS], [speech.SpeechClient()] under a
    credentials path, and the disk. *)
Record Startup : Type :=
  { env_GOOGLE_APPLICATION_CREDENTIALS : option string;
    new_speech_client : string -> outcome unit;
    disk : Disk }.

(** [app_state] when [lifespan] yields. *)
Definition lifespan_startup (s : Startup) : AppState :=
  let credentials :=
    match env_GOOGLE_APPLICATION_CREDENTIALS s with
    | None | Some EmptyString => "keys.json"
    | Some path => path
    end in
  {| speech_client :=
       match new_speech_client s credentials with
       | Returns _ => true
       | Raises _ => false
       end;
     faiss_index_docs := load_faiss_index (disk s) VECTOR_DB_PATH DOCS_PATH |}.

Section OtherEndpoints.

Variable W : World.

(** [str(e)] of a caught exception. *)
Definition str_of_exn (e : exn) : string :=
  match e with
  | PyExc _ msg => msg
  | HTTPException code detail =>
      format_value W (PInt code) ++ ": " ++ detail
  end.

Definition optional_str_value (o : option string) : pyval :=
  match o with
  | Some s => PStr s
  | None => PNone
  end.

Definition optional_dict_value (o : option (list (string * pyval))) : pyval :=
  match o with
  | Some d => PDict d
  | None => PNone
  end.

(** [POST /logs/{farm_id}]. *)
Definition create_log_entry (farm_id : string) (log_request : LogEntry)
  : M pyval :=
  let log_data_to_save :=
    PDict [ ("farmId", PStr farm_id);
            ("activityType", optional_str_value (log_type log_request));
            ("description", PStr (notes log_request));
            ("details", optional_dict_value (details log_request)) ] in
  result <- save_log_entry W farm_id log_data_to_save ;;
  if negb (truthy result)
  then raise (HTTPException 500 "Failed to save log entry via API.")
  else ret result.

Definition status_reason (status reason : string) : pyval :=
  PDict [ ("status", PStr status); ("reason", PStr reason) ].

Definition save_log_to_api (farm_id : string) (structured_log : pyval)
  : M pyval :=
  if String.eqb farm_id "" || negb (truthy structured_log)
  then ret (status_reason "skipped" "Missing farm_id or structured_log")
  else
    try_except
      (result <- save_log_entry W farm_id structured_log ;;
       if negb (truthy result)
       then ret (status_reason "failed" "API error")
       else ret result)
      except_Exception
      (fun e => ret (status_reason "error" (str_of_exn e))).

Record OnboardingVoiceResponse : Type :=
  { onboarding_transcribed_text : string; extracted_value : string }.

(** [POST /onboarding/voice]. *)
Definition fill_form_field_with_voice (audio_file : bytes)
  (question field_name : string) : M OnboardingVoiceResponse :=
  let audio_bytes := audio_file in
  transcribed_text <- transcribe_audio_with_google W audio_bytes "en" ;;
  if String.eqb (strip transcribed_text) ""
  then raise (HTTPException 400 "Audio was empty.")
  else
    let extracted_value := transcribed_text in
    ret {| onboarding_transcribed_text := transcribed_text;
           extracted_value := extracted_value |}.

End OtherEndpoints.

(** ** venv/api_client.py

    The second service tree reads the profile in two requests.
    [DB_API_BASE_URL] is a constant of its config module, which the
    sources do not hold; it is an argument here. *)
Module ApiClient.

Section ApiClient.

Variable W : World.
Variable DB_API_BASE_URL : string.

Definition _make_api_request (method endpoint : string)
  (json_data : option pyval) : M pyval :=
  let url := DB_API_BASE_URL ++ endpoint in
  try_except
    (response <-
       (if String.eqb (upper method) "GET"
        then requests_call W "GET" url None (Some 15)
        else if String.eqb (upper method) "POST"
        then requests_call W "POST" url json_data (Some 15)
        else raise (PyExc ValueError "Unsupported HTTP method")) ;;
     lift (raise_for_status response) ;;;
     lift (json_of response))
    except_RequestException
    (fun e => ret PNone).

(** [farms[0]] on what the gateway answered: an item of a list, the
    value under the key [0] of a dict, which has only string keys, a
    character of a string. *)
Definition first_item (v : pyval) : outcome pyval :=
  match v with
  | PList items => list_getitem items 0
  | PStr s =>
      list_getitem
        (map (fun c => PStr (String c EmptyString)) (list_ascii_of_string s)) 0
  | PDict _ => Raises (PyExc KeyError "0")
  | _ => Raises (PyExc TypeError "object is not subscriptable")
  end.

(** [v.get(key)]: only a dict has the method. *)
Definition get_or_None (v : pyval) (key : string) : outcome pyval :=
  py_get v key PNone.

Definition get_user_profile (user_id : string) : M pyval :=
  farms <- _make_api_request "GET" ("/api/users/" ++ user_id ++ "/farms/") None ;;
  if negb (truthy farms) then ret PNone
  else
    first <- lift (first_item farms) ;;
    primary_farm_id <- lift (get_or_None first "id") ;;
    if negb (truthy primary_farm_id) then ret PNone
    else
      farm_details <-
        _make_api_request "GET"
          ("/api/farms/" ++ format_value W primary_farm_id) None ;;
      ret farm_details.

End ApiClient.

End ApiClient.

(** The address [save_log_entry] posts to. *)
Definition activities_url (W : World) (farm_id : string) : string :=
  API_BASE_URL W ++ "/api/farms/" ++ farm_id ++ "/activities".

(** The log [create_log_from_voice] posts: the stub of
    [generate_structured_log] with the timestamp of the second reading
    of the clock. *)
Definition voice_log_payload (farm_id text timestamp : string)
  : list (string * pyval) :=
  [ ("farmId", PStr farm_id);
    ("activityType", PStr "general");
    ("description", PStr text);
    ("geoLocation", PDict [("lat", PInt 0); ("lng", PInt 0)]);
    ("id", PNone);
    ("timestamp", PStr timestamp) ].

Definition timestamp_of (d : datetime) : string :=
  replace "+00:00" "Z" (isoformat {| wall := d; utcoffset := Some 0 |}).

(** The address [get_proactive_alerts] reads. *)
Definition alerts_url (W : World) (user_id : string) : string :=
  API_BASE_URL W ++ "/api/users/" ++ user_id ++ "/alerts/".


(** The events that are not a call of the image pipeline. *)
Definition no_image_call (ev : event) : Prop :=
  match ev with
  | ImageOpen _ | GenerateContentImage _ _ _ => False
  | _ => True
  end.

Definition is_dict (v : pyval) : bool :=
  match v with PDict _ => true | _ => false end.


(** No separator starts inside [piece] when [piece ++ s] is read. *)
Definition none_starts_in (sep piece s : string) : Prop :=
  forall before after,
    piece ++ s = before ++ sep ++ after ->
    (String.length piece <= String.length before)%nat.

(** ** Further worlds for the examples *)

(** A backend that answers every request with the status [status] and an
    error object. *)
Definition error_body : pyval := PDict [("detail", PStr "Not Found")].

Definition error_world (status : Z) : World :=
  scripted_world echo_generate (Returns [[0]]) demo_search
    (fun _ _ => Returns {| status_code_of := status;
                           json_of := Returns error_body |})
    (Returns [[demo_notes]]) demo_clock demo_state.

(** A backend that takes every request and answers an empty object. *)
Definition empty_answer_world : World :=
  scripted_world echo_generate (Returns [[0]]) demo_search
    (fun _ _ => Returns {| status_code_of := 200;
                           json_of := Returns (PDict []) |})
    (Returns [[demo_notes]]) demo_clock demo_state.

(** The HTTP library fails with an error that is no [RequestException]. *)
Definition broken_world : World :=
  scripted_world echo_generate (Returns [[0]]) demo_search
    (fun _ _ => Raises unavailable)
    (Returns [[demo_notes]]) demo_clock demo_state.

Definition demo_alert : pyval :=
  PDict [ ("id", PStr "alert_1"); ("severity", PStr "high");
          ("title", PStr "Pest alert");
          ("message", PStr "Stem borer reported in the district");
          ("suggestion", PStr "Scout the field this week") ].

(** The alerts of the backend: a complete one, one with an [id] only and
    an item that is no object. *)
Definition demo_alerts : list pyval :=
  [ demo_alert; PDict [("id", PStr "alert_2")]; PStr "alert_3" ].

Definition alerts_world : World :=
  scripted_world echo_generate (Returns [[0]]) demo_search
    (fun _ _ => Returns {| status_code_of := 200;
                           json_of := Returns (PList demo_alerts) |})
    (Returns [[demo_notes]]) demo_clock demo_state.

(** A machine with no credentials and no vector store. *)
Definition bare_startup : Startup :=
  {| env_GOOGLE_APPLICATION_CREDENTIALS := None;
     new_speech_client := fun _ => Raises unavailable;
     disk := {| path_exists := fun _ => false;
                faiss_read_index := fun _ => Raises unavailable;
                read_text := fun _ => Raises unavailable |} |}.

Definition bare_world : World :=
  scripted_world echo_generate (Returns [[0]]) demo_search demo_http
    (Returns [[demo_notes]]) demo_clock (lifespan_startup bare_startup).

(** A vector store of two documents. *)
Definition demo_disk : Disk :=
  {| path_exists := fun _ => true;
     faiss_read_index := fun _ => Returns demo_index;
     read_text := fun _ => Returns ("doc0" ++ docs_separator ++ "doc1") |}.

Definition demo_log_request : LogEntry :=
  {| notes := demo_notes; log_type := Some "fertilizer";
     date := Some "2025-09-20"; crop_name := Some "Paddy";
     summary := None; details := None |}.

(** * Properties *)

(** ** What a computation appends to the trace *)

Lemma adds_ret {A} (a : A) (P : event -> Prop) : adds (ret a) P.
Proof. intro t. exists []. split; [symmetry; apply app_nil_r|constructor]. Qed.

Lemma adds_raise {A} (e : exn) (P : event -> Prop) : adds (@raise A e) P.
Proof. intro t. exists []. split; [symmetry; apply app_nil_r|constructor]. Qed.

Lemma adds_lift {A} (r : outcome A) (P : event -> Prop) : adds (lift r) P.
Proof. intro t. exists []. split; [symmetry; apply app_nil_r|constructor]. Qed.

Lemma adds_call {A} (ev : event) (answer : trace -> outcome A)
  (P : event -> Prop) : P ev -> adds (call ev answer) P.
Proof. intros H t. exists [ev]. split; [reflexivity|]. now constructor. Qed.

Lemma adds_record_call (ev : event) (P : event -> Prop) :
  P ev -> adds (record_call ev) P.
Proof. intros H t. exists [ev]. split; [reflexivity|]. now constructor. Qed.

Lemma adds_bind {A B} (m : M A) (f : A -> M B) (P : event -> Prop) :
  adds m P -> (forall a, adds (f a) P) -> adds (bind m f) P.
Proof.
  intros Hm Hf t. unfold bind.
  destruct (Hm t) as (evs & E & Hall).
  destruct (m t) as [[a|e] t1]; cbn [snd] in E; subst t1.
  - destruct (Hf a (t ++ evs)%list) as (evs' & E' & Hall').
    exists (evs ++ evs')%list. rewrite E', app_assoc.
    split; [reflexivity|]. apply Forall_app. now split.
  - exists evs. now split.
Qed.

Lemma adds_try_except {A} (body : M A) (catches : exn -> bool)
  (handler : exn -> M A) (P : event -> Prop) :
  adds body P -> (forall e, adds (handler e) P) ->
  adds (try_except body catches handler) P.
Proof.
  intros Hb Hh t. unfold try_except.
  destruct (Hb t) as (evs & E & Hall).
  destruct (body t) as [[a|e] t1]; cbn [snd] in E; subst t1.
  - exists evs. now split.
  - destruct (catches e).
    + destruct (Hh e (t ++ evs)%list) as (evs' & E' & Hall').
      exists (evs ++ evs')%list. rewrite E', app_assoc.
      split; [reflexivity|]. apply Forall_app. now split.
    + exists evs. now split.
Qed.

Lemma adds_weaken {A} (m : M A) (P Q : event -> Prop) :
  (forall ev, P ev -> Q ev) -> adds m P -> adds m Q.
Proof.
  intros HPQ Hm t. destruct (Hm t) as (evs & E & Hall).
  exists evs. split; [exact E|]. eapply Forall_impl; eauto.
Qed.

(** Steps through a computation to bound what it appends to the trace. *)
Ltac adds_step :=
  first
    [ apply adds_ret | apply adds_raise | apply adds_lift
    | apply adds_bind; [|intros ?]
    | apply adds_try_except; [|intros ?]
    | apply adds_call | apply adds_record_call
    | match goal with
      | |- adds (match ?x with _ => _ end) _ => destruct x
      end ].

Ltac adds_auto := repeat adds_step.


Section TranslationProperties.

Variable W : World.

Lemma eqb_false_of_neq (a b : string) : a <> b -> String.eqb a b = false.
Proof. intro H. apply String.eqb_neq. exact H. Qed.

(** The run of [translate_text] between equal languages. *)
Lemma translate_text_same_language_run (text lang : string) (t : trace) :
  translate_text W text lang lang t
  = (Returns text, (t ++ [Call_translate_text text lang lang])%list).
Proof.
  unfold translate_text, bind, record_call, try_except, ret.
  rewrite String.eqb_refl. reflexivity.
Qed.

(** C2.  Translating from a language to itself returns the text as it
    came, and the run issues no call that leaves the process: the only
    event added to the trace is the record that [translate_text] was
    entered. *)
Theorem translate_text_same_language_identity (text lang : string) (t : trace) :
  translate_text W text lang lang t
  = (Returns text, (t ++ [Call_translate_text text lang lang])%list)
  /\ filter external (snd (translate_text W text lang lang t))
     = filter external t.
Proof.
  split; [apply translate_text_same_language_run|].
  rewrite translate_text_same_language_run. cbn [snd].
  rewrite filter_app. cbn. apply app_nil_r.
Qed.

(** C6.  With different languages, an exception of the generative call is
    caught and the sentinel ["Translation Error"] is returned. *)
Theorem translate_text_failure_gives_sentinel
  (text src dest : string) (t : trace) (e : exn) :
  src <> dest ->
  generate_content W (t ++ [Call_translate_text text src dest])%list
    translation_model
    (translate_prompt (str_dict_get SUPPORTED_LANGUAGES src src)
       (str_dict_get SUPPORTED_LANGUAGES dest dest) text)
  = Raises e ->
  fst (translate_text W text src dest t) = Returns "Translation Error".
Proof.
  intros Hne Hgen.
  unfold translate_text, bind, record_call, try_except, call, ret.
  rewrite (eqb_false_of_neq _ _ Hne). rewrite Hgen. reflexivity.
Qed.

End TranslationProperties.

Section RetrievalProperties.

Variable W : World.

(** What [rag_retrieve] does, by the outcome of each step. *)
Lemma rag_retrieve_unfold (query : string) (index : faiss_Index)
  (docs : list string) (k : Z) (t : trace) :
  rag_retrieve W query index docs k t =
  let t1 := (t ++ [EmbedContent EMBEDDING_MODEL [query]])%list in
  match embed_content W t EMBEDDING_MODEL [query] with
  | Raises _ => (Returns retrieval_error, t1)
  | Returns x =>
      let t2 := (t1 ++ [IndexSearch index x k])%list in
      match index_search W t1 index x k with
      | Raises _ => (Returns retrieval_error, t2)
      | Returns (_, indices) =>
          match list_getitem indices 0 with
          | Raises _ => (Returns retrieval_error, t2)
          | Returns row =>
              match relevant_docs_of docs row with
              | Raises _ => (Returns retrieval_error, t2)
              | Returns ds => (Returns (join docs_separator ds), t2)
              end
          end
      end
  end.
Proof.
  unfold rag_retrieve, embed_texts, try_except, bind, call, lift, raise, ret.
  cbv beta zeta.
  destruct (embed_content W t EMBEDDING_MODEL [query]) as [x|e];
    cbv beta iota; [|reflexivity].
  destruct (index_search W _ index x k) as [[D indices]|e];
    cbv beta iota; [|reflexivity].
  destruct (list_getitem indices 0) as [row|e]; cbv beta iota; [|reflexivity].
  destruct (relevant_docs_of docs row) as [ds|e]; reflexivity.
Qed.

Lemma list_getitem_in_range {A} (l : list A) (i : Z) (x : A) (d : A) :
  list_getitem l i = Returns x ->
  0 <= list_position l i < Z.of_nat (List.length l)
  /\ x = nth (Z.to_nat (list_position l i)) l d.
Proof.
  unfold list_getitem. cbv zeta.
  destruct (0 <=? list_position l i) eqn:Hpos; [|discriminate].
  destruct (nth_error l (Z.to_nat (list_position l i))) as [y|] eqn:Hn;
    [|discriminate].
  intro H. injection H as <-.
  apply Z.leb_le in Hpos.
  assert (Hlt : (Z.to_nat (list_position l i) < List.length l)%nat).
  { apply nth_error_Some. rewrite Hn. discriminate. }
  split; [lia|].
  symmetry. apply nth_error_nth. exact Hn.
Qed.

Lemma list_getitem_returns {A} (l : list A) (i : Z) :
  - Z.of_nat (List.length l) <= i < Z.of_nat (List.length l) ->
  exists x, list_getitem l i = Returns x.
Proof.
  intro H. unfold list_getitem, list_position. cbv zeta.
  destruct (i <? 0) eqn:Hneg.
  - apply Z.ltb_lt in Hneg.
    assert (Hpos : (0 <=? i + Z.of_nat (List.length l)) = true)
      by (apply Z.leb_le; lia).
    rewrite Hpos.
    destruct (nth_error l (Z.to_nat (i + Z.of_nat (List.length l)))) eqn:Hn;
      [eexists; reflexivity|].
    apply nth_error_None in Hn. lia.
  - apply Z.ltb_ge in Hneg.
    assert (Hpos : (0 <=? i) = true) by (apply Z.leb_le; lia).
    rewrite Hpos.
    destruct (nth_error l (Z.to_nat i)) eqn:Hn; [eexists; reflexivity|].
    apply nth_error_None in Hn. lia.
Qed.

(** The comprehension keeps the labels below the document count, in
    order, and reads the document at each. *)
Lemma relevant_docs_of_returns (docs : list string) (labels : list Z)
  (ds : list string) :
  relevant_docs_of docs labels = Returns ds ->
  let kept := filter (fun i => i <? Z.of_nat (List.length docs)) labels in
  ds = map (doc_at docs) kept
  /\ Forall (fun i => i < Z.of_nat (List.length docs)
                      /\ 0 <= list_position docs i < Z.of_nat (List.length docs))
       kept.
Proof.
  cbv zeta. revert ds.
  induction labels as [|i rest IH]; intros ds H; cbn in H |- *.
  - injection H as <-. split; [reflexivity|constructor].
  - destruct (i <? Z.of_nat (List.length docs)) eqn:Hi.
    + destruct (list_getitem docs i) as [d|e] eqn:Hd; [|discriminate].
      destruct (relevant_docs_of docs rest) as [ds'|e]; [|discriminate].
      injection H as <-.
      destruct (IH ds' eq_refl) as [-> Hall].
      destruct (list_getitem_in_range docs i d "" Hd) as [Hr ->].
      apply Z.ltb_lt in Hi.
      split; [reflexivity|]. constructor; [split; assumption|assumption].
    + apply IH. exact H.
Qed.

Lemma relevant_docs_of_total (docs : list string) (labels : list Z) :
  Forall (fun i => - Z.of_nat (List.length docs) <= i) labels ->
  exists ds, relevant_docs_of docs labels = Returns ds.
Proof.
  induction 1 as [|i rest Hi _ IH]; cbn.
  - eexists; reflexivity.
  - destruct IH as [ds' Hds'].
    destruct (i <? Z.of_nat (List.length docs)) eqn:Hlt.
    + apply Z.ltb_lt in Hlt.
      destruct (list_getitem_returns docs i) as [d Hd]; [lia|].
      rewrite Hd, Hds'. eexists; reflexivity.
    + rewrite Hds'. eexists; reflexivity.
Qed.

Lemma filter_length_le {A} (f : A -> bool) (l : list A) :
  (List.length (filter f l) <= List.length l)%nat.
Proof.
  induction l as [|a l IH]; cbn; [lia|].
  destruct (f a); cbn; lia.
Qed.

Lemma list_getitem_zero {A} (l : list A) (x : A) :
  list_getitem l 0 = Returns x -> exists rest, l = x :: rest.
Proof.
  destruct l as [|y rest]; cbn; [discriminate|].
  intro H. injection H as <-. exists rest. reflexivity.
Qed.

Lemma built_from_filter (docs : list string) (row : list Z) (ds : list string) :
  relevant_docs_of docs row = Returns ds ->
  built_from docs (filter (fun i => i <? Z.of_nat (List.length docs)) row)
    (join docs_separator ds)
  /\ (List.length (filter (fun i => (i <? Z.of_nat (List.length docs))%Z) row)
      <= List.length row)%nat.
Proof.
  intro H. destruct (relevant_docs_of_returns docs row ds H) as [-> Hall].
  split; [split; [exact Hall|reflexivity]|apply filter_length_le].
Qed.


Lemma string_app_assoc (a b c : string) : (a ++ b) ++ c = a ++ (b ++ c).
Proof. induction a as [|ch a IH]; cbn; [reflexivity|]. now rewrite IH. Qed.

Lemma contains_refl (s : string) : contains s s.
Proof.
  exists "", "". cbn. induction s as [|c s IH]; cbn; [reflexivity|].
  now rewrite <- IH.
Qed.

Lemma join_contains (sep d : string) (ds : list string) :
  In d ds -> contains (join sep ds) d.
Proof.
  unfold join. induction ds as [|d0 ds IH]; [intros []|].
  intros [->|Hin].
  - destruct ds as [|d1 ds]; cbn [concat]; [apply contains_refl|].
    exists "", (sep ++ concat sep (d1 :: ds)). reflexivity.
  - destruct ds as [|d1 ds]; [destruct Hin|].
    destruct (IH Hin) as (before & after & E).
    exists (d0 ++ sep ++ before), after.
    cbn [concat] in E |- *. rewrite E.
    now rewrite !string_app_assoc.
Qed.

Lemma nth_pred_length_last {A} (l : list A) (d : A) :
  nth (List.length l - 1) l d = last l d.
Proof.
  induction l as [|a l IH]; [reflexivity|].
  destruct l as [|b l]; [reflexivity|].
  cbn [List.length last] in IH |- *.
  rewrite <- IH. cbn. now rewrite Nat.sub_0_r.
Qed.

Lemma doc_at_minus_one (docs : list string) :
  docs <> [] -> doc_at docs (-1) = last docs "".
Proof.
  intro Hne. unfold doc_at, list_position. cbn [Z.ltb Z.compare].
  rewrite <- nth_pred_length_last. f_equal.
  destruct docs as [|d docs]; [contradiction|]. cbn [List.length]. lia.
Qed.

(** C5.  When the embedding call raises, or it answers and the search
    raises, [rag_retrieve] returns the retrieval error text instead of
    raising, and that text opens with the marker ["Error"]. *)
Theorem rag_retrieve_failure_gives_error_text
  (query : string) (index : faiss_Index) (docs : list string) (k : Z)
  (t : trace) :
  (exists e, embed_content W t EMBEDDING_MODEL [query] = Raises e)
  \/ (exists x e,
        embed_content W t EMBEDDING_MODEL [query] = Returns x
        /\ index_search W (t ++ [EmbedContent EMBEDDING_MODEL [query]])%list
             index x k = Raises e) ->
  fst (rag_retrieve W query index docs k t) = Returns retrieval_error
  /\ String.prefix error_marker retrieval_error = true
  /\ contains retrieval_error error_marker.
Proof.
  intro H. split; [|split; [reflexivity|]].
  - rewrite rag_retrieve_unfold. cbv zeta.
    destruct H as [[e He]|(x & e & Hx & He)].
    + rewrite He. reflexivity.
    + rewrite Hx, He. reflexivity.
  - exists "", ": Could not retrieve relevant context.". reflexivity.
Qed.


End RetrievalProperties.

Section ImageProperties.

Variable W : World.

Lemma analyze_image_never_raises (image_bytes : bytes) (t : trace) :
  exists caption, fst (analyze_image_with_gemini W image_bytes t) = Returns caption.
Proof.
  unfold analyze_image_with_gemini, try_except, bind, call, ret.
  destruct (image_open W t image_bytes) as [image|e]; cbv beta iota.
  - destruct (generate_content_image W _ llm_model image_prompt image);
      eexists; reflexivity.
  - eexists; reflexivity.
Qed.

(** C7.  When decoding the image raises, or the image decodes and the
    multimodal call raises, [analyze_image_with_gemini] returns the fixed
    fallback text and does not raise. *)
Theorem analyze_image_failure_gives_fallback (image_bytes : bytes) (t : trace) :
  (exists e, image_open W t image_bytes = Raises e)
  \/ (exists image e,
        image_open W t image_bytes = Returns image
        /\ generate_content_image W (t ++ [ImageOpen image_bytes])%list
             llm_model image_prompt image = Raises e) ->
  fst (analyze_image_with_gemini W image_bytes t)
  = Returns "Could not analyze the uploaded image.".
Proof.
  intro H.
  unfold analyze_image_with_gemini, try_except, bind, call, ret.
  destruct H as [[e He]|(image & e & Hi & He)].
  - rewrite He. reflexivity.
  - rewrite Hi. cbv beta iota. rewrite He. reflexivity.
Qed.

End ImageProperties.

Section TraceProperties.

Variable W : World.

Lemma http_with_timeout_15_not_a_translation (ev : event) :
  http_with_timeout_15 ev -> not_a_translation ev.
Proof. intros (method & url & json & ->). reflexivity. Qed.

Lemma http_with_timeout_15_intro (method url : string) (json : option pyval) :
  http_with_timeout_15 (HttpRequest method url json (Some 15)).
Proof. now exists method, url, json. Qed.

(** Every request [_make_api_request] sends carries [timeout=15]. *)
Lemma make_api_request_adds (method endpoint : string)
  (json_data : option pyval) :
  adds (_make_api_request W method endpoint json_data) http_with_timeout_15.
Proof.
  unfold _make_api_request, requests_call. adds_auto;
    apply http_with_timeout_15_intro.
Qed.

Lemma get_user_profile_adds (user_id : string) :
  adds (get_user_profile W user_id) http_with_timeout_15.
Proof.
  unfold get_user_profile. apply adds_bind; [apply make_api_request_adds|].
  intros farms. adds_auto.
Qed.

Lemma save_log_entry_adds (farm_id : string) (log_data : pyval) :
  adds (save_log_entry W farm_id log_data) http_with_timeout_15.
Proof. apply make_api_request_adds. Qed.

(** A request that times out, like any [RequestException], makes
    [_make_api_request] return [None]. *)
Lemma make_api_request_timeout_gives_None (endpoint : string) (t : trace)
  (msg : string) :
  http_request W t "GET" (API_BASE_URL W ++ endpoint) None (Some 15)
  = Raises (PyExc RequestException msg) ->
  fst (_make_api_request W "GET" endpoint None t) = Returns PNone.
Proof.
  intro H. unfold _make_api_request, try_except, bind, requests_call, call.
  change (String.eqb (upper "GET") "GET") with true. cbv beta iota zeta.
  rewrite H. reflexivity.
Qed.

(** C8.  The alerts endpoint sends its one HTTP request with no timeout:
    the run appends a single event, a [GET] whose [timeout] is [None],
    whereas every request of [_make_api_request] carries [timeout=15]. *)
Theorem get_proactive_alerts_request_without_timeout
  (user_id : string) (t : trace) :
  snd (get_proactive_alerts W user_id t)
  = (t ++ [HttpRequest "GET"
             (API_BASE_URL W ++ "/api/users/" ++ user_id ++ "/alerts/")
             None None])%list
  /\ ~ http_with_timeout_15
         (HttpRequest "GET"
            (API_BASE_URL W ++ "/api/users/" ++ user_id ++ "/alerts/")
            None None)
  /\ (forall method endpoint json_data,
         adds (_make_api_request W method endpoint json_data)
           http_with_timeout_15).
Proof.
  split; [|split].
  - unfold get_proactive_alerts, bind, requests_call, call, lift, ret.
    destruct (http_request W t _ _ _ _) as [response|e]; [|reflexivity].
    destruct (json_of response) as [raw|e]; [|reflexivity].
    destruct (py_iter raw); reflexivity.
  - intros (method & url & json & H). discriminate.
  - apply make_api_request_adds.
Qed.

End TraceProperties.

Section RejectionProperties.

Variable W : World.


End RejectionProperties.

Section ChatProperties.

Variable W : World.

Lemma bind_returns {A B} (m : M A) (f : A -> M B) (t t' : trace) (b : B) :
  bind m f t = (Returns b, t') ->
  exists a t1, m t = (Returns a, t1) /\ f a t1 = (Returns b, t').
Proof.
  unfold bind. destruct (m t) as [[a|e] t1]; [|discriminate].
  intro H. now exists a, t1.
Qed.

Lemma lift_returns {A} (r : outcome A) (t t' : trace) (a : A) :
  lift r t = (Returns a, t') -> r = Returns a /\ t' = t.
Proof. unfold lift. intro H. injection H as -> ->. now split. Qed.

Lemma ret_returns {A} (a0 a : A) (t t' : trace) :
  ret a0 t = (Returns a, t') -> a = a0 /\ t' = t.
Proof. unfold ret. intro H. injection H as -> ->. now split. Qed.

Lemma adds_run {A} (m : M A) (P : event -> Prop) (t t' : trace)
  (o : outcome A) :
  adds m P -> m t = (o, t') -> exists evs, t' = (t ++ evs)%list /\ Forall P evs.
Proof.
  intros Hm E. destruct (Hm t) as (evs & E' & Hall).
  rewrite E in E'. now exists evs.
Qed.

Lemma translate_calls_none (evs : list event) :
  Forall not_a_translation evs -> translate_calls evs = [].
Proof.
  unfold translate_calls. induction 1 as [|ev evs Hev _ IH]; [reflexivity|].
  cbn. rewrite Hev. exact IH.
Qed.

Lemma translate_calls_app (t u : trace) :
  translate_calls (t ++ u)%list = (translate_calls t ++ translate_calls u)%list.
Proof. apply filter_app. Qed.

Lemma rag_retrieve_adds (query : string) (index : faiss_Index)
  (docs : list string) (k : Z) :
  adds (rag_retrieve W query index docs k) not_a_translation.
Proof.
  unfold rag_retrieve, embed_texts. adds_auto; reflexivity.
Qed.

Lemma analyze_image_adds (image_bytes : bytes) :
  adds (analyze_image_with_gemini W image_bytes) not_a_translation.
Proof. unfold analyze_image_with_gemini. adds_auto; reflexivity. Qed.

Lemma get_dashboard_predictions_adds (profile weather : pyval) :
  adds (get_dashboard_predictions W profile weather) not_a_translation.
Proof.
  unfold get_dashboard_predictions, dashboard_prompt, default_predictions,
    fmt_get.
  adds_auto; reflexivity.
Qed.

Lemma get_user_profile_adds_no_translation (user_id : string) :
  adds (get_user_profile W user_id) not_a_translation.
Proof.
  eapply adds_weaken; [|apply get_user_profile_adds].
  apply http_with_timeout_15_not_a_translation.
Qed.

(** A run of [translate_text] records its entry, adds at most the call of
    the translation model, and returns. *)
Lemma translate_text_run (text src dest : string) (t : trace) :
  exists result evs,
    translate_text W text src dest t
    = (Returns result, (t ++ Call_translate_text text src dest :: evs)%list)
    /\ Forall not_a_translation evs
    /\ (src <> dest ->
        result
        = match generate_content W
                  (t ++ [Call_translate_text text src dest])%list
                  translation_model
                  (translate_prompt (str_dict_get SUPPORTED_LANGUAGES src src)
                     (str_dict_get SUPPORTED_LANGUAGES dest dest) text) with
          | Returns answer => strip answer
          | Raises _ => "Translation Error"
          end).
Proof.
  unfold translate_text, bind, record_call, try_except, call, ret.
  destruct (String.eqb src dest) eqn:E.
  - exists text, []. split; [reflexivity|]. split; [constructor|].
    apply String.eqb_eq in E. intro Hne. contradiction.
  - destruct (generate_content W _ translation_model _) as [answer|e] eqn:G.
    + eexists _, [_]. rewrite <- app_assoc. split; [reflexivity|].
      split; [repeat constructor|]. intros _. reflexivity.
    + eexists _, [_]. cbn [except_Exception]. rewrite <- app_assoc.
      split; [reflexivity|]. split; [repeat constructor|].
      intros _. reflexivity.
Qed.

(** The synthesis step called in English: [translate_text] is entered
    once, from English to English, and the answer of [llm_model] is
    returned as it is. *)
Lemma process_chat_query_english_run (query : string)
  (profile predictions : pyval) (faiss_index : faiss_Index)
  (docs : list string) (image_bytes : option bytes) (t t' : trace)
  (english : string) :
  process_chat_query W query profile predictions faiss_index docs "en"
    image_bytes t = (Returns english, t') ->
  exists evs prompt,
    let t_llm := (t ++ Call_translate_text query "en" "en" :: evs)%list in
    t' = (t_llm ++ [GenerateContent llm_model prompt])%list
    /\ Forall not_a_translation evs
    /\ generate_content W t_llm llm_model prompt = Returns english.
Proof.
  unfold process_chat_query. intro H.
  apply bind_returns in H as (eng_query & t1 & Htr & H).
  rewrite translate_text_same_language_run in Htr.
  injection Htr as <- <-.
  apply bind_returns in H as (image_analysis & t2 & Himg & H).
  assert (Hadd2 : exists evs, t2 = ((t ++ [Call_translate_text query "en" "en"])
                                     ++ evs)%list
                              /\ Forall not_a_translation evs).
  { eapply adds_run; [|exact Himg].
    destruct image_bytes as [[|b bs]|]; first [apply adds_ret|apply analyze_image_adds]. }
  destruct Hadd2 as (evs2 & -> & Hall2).
  apply bind_returns in H as (rag_context & t3 & Hrag & H).
  destruct (adds_run _ _ _ _ _ (rag_retrieve_adds query faiss_index docs 3) Hrag)
    as (evs3 & -> & Hall3).
  unfold call in H. injection H as Hgen <-.
  exists (evs2 ++ evs3)%list. eexists. cbv zeta.
  replace (t ++ Call_translate_text query "en" "en" :: evs2 ++ evs3)%list
    with (((t ++ [Call_translate_text query "en" "en"]) ++ evs2) ++ evs3)%list
    by (rewrite <- !app_assoc; reflexivity).
  split; [reflexivity|]. split; [apply Forall_app; now split|exact Hgen].
Qed.


End ChatProperties.

(** ** Timestamps: printing, replacing and parsing *)

Lemma digit_cases (d : Z) :
  0 <= d < 10 ->
  d = 0 \/ d = 1 \/ d = 2 \/ d = 3 \/ d = 4 \/ d = 5 \/ d = 6 \/ d = 7
  \/ d = 8 \/ d = 9.
Proof. lia. Qed.

Lemma digit_value_digit_char (d : Z) :
  0 <= d < 10 -> digit_value (digit_char d) = Some d.
Proof.
  intro H. destruct (digit_cases d H) as [->|[->|[->|[->|[->|[->|[->|[->|[->| ->]]]]]]]]];
    reflexivity.
Qed.

Lemma iso_char_digit_char (d : Z) : 0 <= d < 10 -> iso_char (digit_char d) = true.
Proof.
  intro H. unfold iso_char. now rewrite digit_value_digit_char.
Qed.

Lemma all_chars_app (p : ascii -> bool) (a b : string) :
  all_chars p (a ++ b) = all_chars p a && all_chars p b.
Proof.
  induction a as [|c a IH]; cbn; [reflexivity|].
  now rewrite IH, andb_assoc.
Qed.

Lemma zero_pad_iso_chars (width : nat) (n : Z) :
  all_chars iso_char (zero_pad width n) = true.
Proof.
  revert n. induction width as [|w IH]; intro n; cbn [zero_pad]; [reflexivity|].
  rewrite all_chars_app, IH. cbn [all_chars andb].
  rewrite iso_char_digit_char; [reflexivity|].
  apply Z.mod_pos_bound. lia.
Qed.

Lemma parse_digits_step (width : nat) (acc : Z) (s : string) :
  parse_digits (S width) acc s
  = option_bind (parse_digits width acc s)
      (fun '(a, rest) => parse_digits 1 a rest).
Proof.
  revert acc s. induction width as [|w IH]; intros acc s; [reflexivity|].
  destruct s as [|c s]; [reflexivity|].
  cbn [parse_digits]. destruct (digit_value c) as [d|]; [|reflexivity].
  apply (IH (10 * acc + d) s).
Qed.

(** Parsing reads back the digits that [zero_pad] printed. *)
Lemma parse_digits_zero_pad (width : nat) (acc n : Z) (rest : string) :
  0 <= n < 10 ^ Z.of_nat width ->
  parse_digits width acc (zero_pad width n ++ rest)
  = Some (acc * 10 ^ Z.of_nat width + n, rest).
Proof.
  revert n rest. induction width as [|w IH]; intros n rest Hn.
  - cbn in Hn |- *. f_equal. f_equal. lia.
  - rewrite parse_digits_step. cbn [zero_pad].
    rewrite string_app_assoc. cbn [append].
    rewrite Nat2Z.inj_succ, Z.pow_succ_r in Hn by lia.
    rewrite IH by (split; [apply Z.div_pos; lia|apply Z.div_lt_upper_bound; lia]).
    cbn [option_bind parse_digits].
    rewrite digit_value_digit_char by (apply Z.mod_pos_bound; lia).
    rewrite Nat2Z.inj_succ, Z.pow_succ_r by lia.
    f_equal. f_equal.
    pose proof (Z.div_mod n 10 ltac:(lia)). lia.
Qed.

Lemma replace_offset_by_Z (body : string) :
  all_chars iso_char body = true ->
  replace "+00:00" "Z" (body ++ "+00:00") = body ++ "Z".
Proof.
  unfold replace. induction body as [|c body IH]; [reflexivity|].
  cbn [all_chars]. intro H. apply andb_true_iff in H as [Hc Hbody].
  cbn [append replace_from prefix].
  destruct (ascii_dec "+" c) as [<-|_]; [discriminate|].
  now rewrite (IH Hbody).
Qed.

Lemma replace_Z_by_offset (body : string) :
  all_chars iso_char body = true ->
  replace "Z" "+00:00" (body ++ "Z") = body ++ "+00:00".
Proof.
  unfold replace. induction body as [|c body IH]; [reflexivity|].
  cbn [all_chars]. intro H. apply andb_true_iff in H as [Hc Hbody].
  cbn [append replace_from prefix].
  destruct (ascii_dec "Z" c) as [<-|_]; [discriminate|].
  now rewrite (IH Hbody).
Qed.

Lemma isoformat_utc (d : datetime) :
  isoformat {| wall := d; utcoffset := Some 0 |}
  = isoformat_wall d ++ "+00:00".
Proof. reflexivity. Qed.

Lemma isoformat_wall_iso_chars (d : datetime) :
  all_chars iso_char (isoformat_wall d) = true.
Proof.
  unfold isoformat_wall.
  repeat (rewrite all_chars_app, zero_pad_iso_chars; cbn [all_chars andb append]).
  destruct (microsecond d =? 0); [reflexivity|].
  cbn [append all_chars]. now rewrite zero_pad_iso_chars.
Qed.

(** The timestamp sent to the backend, with ["Z"] put back to
    ["+00:00"], is the ISO form of the clock reading. *)
Lemma timestamp_back_to_isoformat (d : datetime) :
  replace "Z" "+00:00"
    (replace "+00:00" "Z" (isoformat {| wall := d; utcoffset := Some 0 |}))
  = isoformat {| wall := d; utcoffset := Some 0 |}.
Proof.
  rewrite isoformat_utc.
  rewrite replace_offset_by_Z by apply isoformat_wall_iso_chars.
  apply replace_Z_by_offset, isoformat_wall_iso_chars.
Qed.

Lemma valid_datetimeb_of_valid (d : datetime) :
  valid_datetime d -> valid_datetimeb d = true.
Proof.
  intros (Hy & Hmo & Hd & Hh & Hmi & Hs & Hus). unfold valid_datetimeb.
  repeat (apply andb_true_iff; split);
    first [apply Z.leb_le; lia | apply Z.ltb_lt; lia].
Qed.

Lemma parse_fraction_printed (us : Z) (rest : string) :
  0 <= us < 1000000 ->
  (forall c rest', rest = String c rest' -> Ascii.eqb c "." = false) ->
  parse_fraction
    ((if us =? 0 then "" else "." ++ zero_pad 6 us) ++ rest)
  = Some (us, rest).
Proof.
  intros Hus Hrest. destruct (us =? 0) eqn:E.
  - apply Z.eqb_eq in E. subst us. cbn [append].
    destruct rest as [|c rest']; [reflexivity|].
    specialize (Hrest c rest' eq_refl).
    unfold parse_fraction.
    destruct c as [[] [] [] [] [] [] [] []]; try reflexivity; discriminate.
  - cbn [append]. unfold parse_fraction.
    rewrite parse_digits_zero_pad by (cbn; lia).
    f_equal.
Qed.

(** [fromisoformat] reads back what [isoformat] printed for a UTC
    datetime. *)
Lemma parse_isoformat_isoformat (d : datetime) :
  valid_datetime d ->
  parse_isoformat (isoformat {| wall := d; utcoffset := Some 0 |})
  = Some {| wall := d; utcoffset := Some 0 |}.
Proof.
  intro Hvalid. pose proof (valid_datetimeb_of_valid d Hvalid) as Hb.
  destruct Hvalid as (Hy & Hmo & Hd & Hh & Hmi & Hs & Hus).
  assert (Hday : day d <= 31).
  { unfold days_in_month in Hd.
    destruct (month d =? 2); [destruct (is_leap (year d)); lia|].
    destruct ((month d =? 4) || (month d =? 6) || (month d =? 9)
              || (month d =? 11)); lia. }
  rewrite isoformat_utc. unfold isoformat_wall, parse_isoformat.
  rewrite !string_app_assoc. cbn [append].
  rewrite parse_digits_zero_pad by (cbn; lia).
  cbn [option_bind expect Ascii.eqb Bool.eqb].
  rewrite parse_digits_zero_pad by (cbn; lia).
  cbn [option_bind expect Ascii.eqb Bool.eqb].
  rewrite parse_digits_zero_pad by (cbn; lia).
  cbn [option_bind expect Ascii.eqb Bool.eqb].
  rewrite parse_digits_zero_pad by (cbn; lia).
  cbn [option_bind expect Ascii.eqb Bool.eqb].
  rewrite parse_digits_zero_pad by (cbn; lia).
  cbn [option_bind expect Ascii.eqb Bool.eqb].
  rewrite parse_digits_zero_pad by (cbn; lia).
  cbn [option_bind].
  rewrite parse_fraction_printed;
    [|exact Hus|intros c rest' E; injection E as <- _; reflexivity].
  cbn [option_bind]. 
  change (parse_offset "+00:00") with (Some (Some 0)).
  cbn [option_bind].
  replace (0 * 10 ^ Z.of_nat 4 + year d) with (year d) by lia.
  replace (0 * 10 ^ Z.of_nat 2 + month d) with (month d) by lia.
  replace (0 * 10 ^ Z.of_nat 2 + day d) with (day d) by lia.
  replace (0 * 10 ^ Z.of_nat 2 + hour d) with (hour d) by lia.
  replace (0 * 10 ^ Z.of_nat 2 + minute d) with (minute d) by lia.
  replace (0 * 10 ^ Z.of_nat 2 + second d) with (second d) by lia.
  replace (0 * 10 ^ Z.of_nat 6 + microsecond d) with (microsecond d) by lia.
  destruct d as [y mo dd h mi s us]. cbn [year month day hour minute second
    microsecond] in *. rewrite Hb. reflexivity.
Qed.

Section VoiceLogProperties.

Variable W : World.

Lemma utc_timestamp_run (t : trace) :
  utc_timestamp W t
  = (Returns (replace "+00:00" "Z"
                (isoformat {| wall := datetime_now W t; utcoffset := Some 0 |})),
     (t ++ [DatetimeNow])%list).
Proof. reflexivity. Qed.

(** The log is built without a call that can fail: only the clock is read. *)
Lemma generated_run (text farm_id : string) (t : trace) :
  try_except
    (api_log <- generate_structured_log W text farm_id ;; ret (Some api_log))
    except_Exception (fun e => ret None) t
  = (Returns
       (Some
          [ ("farmId", PStr farm_id); ("activityType", PStr "general");
            ("description", PStr text);
            ("geoLocation", PDict [("lat", PInt 0); ("lng", PInt 0)]);
            ("id", PNone);
            ("timestamp",
              PStr (replace "+00:00" "Z"
                      (isoformat {| wall := datetime_now W t;
                                    utcoffset := Some 0 |}))) ]),
     (t ++ [DatetimeNow])%list).
Proof. reflexivity. Qed.

End VoiceLogProperties.

(** ** The theorems on concrete runs *)

Lemma demo_search_gives_k_labels : search_gives_k_labels echo_world.
Proof.
  intros t index x k D I. cbn. unfold demo_search.
  destruct (k =? 3) eqn:Hk; [|discriminate].
  destruct (ntotal index =? 10); [|discriminate].
  cbn. intro H. injection H as _ <-. apply Z.eqb_eq in Hk. subst k.
  repeat constructor.
Qed.

Lemma demo_search_labels_in_index : search_labels_in_index echo_world.
Proof.
  intros t index x k D I. cbn. unfold demo_search.
  destruct (k =? 3); [|discriminate].
  destruct (ntotal index =? 10) eqn:Hn; [|discriminate].
  cbn. intro H. injection H as _ <-. apply Z.eqb_eq in Hn. rewrite Hn.
  repeat constructor; lia.
Qed.


(** On the index of ten vectors and the eight documents, the labels 9, 3
    and -1 give the documents at positions 3 and 7. *)
Example rag_retrieve_mismatch_run :
  fst (rag_retrieve echo_world demo_query demo_index demo_docs 3 [])
  = Returns ("doc3" ++ docs_separator ++ "doc7").
Proof. reflexivity. Qed.

Lemma rag_retrieve_failure_gives_error_text_witness :
  (exists e, embed_content down_world [] EMBEDDING_MODEL [demo_query] = Raises e)
  /\ (fst (rag_retrieve down_world demo_query demo_index demo_docs 3 [])
      = Returns retrieval_error
      /\ String.prefix error_marker retrieval_error = true
      /\ contains retrieval_error error_marker)
  /\ (fst (rag_retrieve search_down_world demo_query demo_index demo_docs 3 [])
      = Returns retrieval_error
      /\ String.prefix error_marker retrieval_error = true
      /\ contains retrieval_error error_marker).
Proof.
  assert (H : exists e, embed_content down_world [] EMBEDDING_MODEL [demo_query]
                        = Raises e) by (exists unavailable; reflexivity).
  split; [exact H|]. split.
  - apply (rag_retrieve_failure_gives_error_text down_world). left. exact H.
  - apply (rag_retrieve_failure_gives_error_text search_down_world). right.
    exists [[0]], unavailable. split; reflexivity.
Defined.

Lemma translate_text_failure_gives_sentinel_witness :
  "hi" <> "en"
  /\ fst (translate_text down_world demo_query "hi" "en" [])
     = Returns "Translation Error".
Proof.
  assert (H : "hi" <> "en") by discriminate.
  split; [exact H|].
  exact (translate_text_failure_gives_sentinel down_world demo_query "hi" "en"
           [] unavailable H eq_refl).
Defined.

Lemma analyze_image_failure_gives_fallback_witness :
  (exists image e,
      image_open down_world [] demo_audio = Returns image
      /\ generate_content_image down_world ([] ++ [ImageOpen demo_audio])%list
           llm_model image_prompt image = Raises e)
  /\ fst (analyze_image_with_gemini down_world demo_audio [])
     = Returns "Could not analyze the uploaded image.".
Proof.
  assert (H : exists image e,
             image_open down_world [] demo_audio = Returns image
             /\ generate_content_image down_world
                  ([] ++ [ImageOpen demo_audio])%list llm_model image_prompt
                  image = Raises e).
  { exists {| source := demo_audio |}, unavailable. split; reflexivity. }
  split; [exact H|].
  apply (analyze_image_failure_gives_fallback down_world). right. exact H.
Defined.


(** The chat run of the examples: a query sent as text with
    [language_code = "hi"], no image, no audio. *)
Lemma demo_chat_run :
  fst (chat_with_assistant echo_world "ramesh_123" (Some demo_query) "hi"
         None None [])
  = Returns {| response_text := demo_answer; transcribed_text := None |}
  /\ translate_calls
       (snd (chat_with_assistant echo_world "ramesh_123" (Some demo_query)
               "hi" None None []))
     = [ Call_translate_text demo_query "en" "en";
         Call_translate_text demo_answer "en" "hi" ].
Proof. split; vm_compute; reflexivity. Qed.



Lemma demo_clock_valid (t : trace) : valid_datetime (datetime_now echo_world t).
Proof. cbn. unfold valid_datetime. cbn. lia. Qed.

(** The voice-log run of the examples: the notes of the scenario are
    heard, the backend of the farm whose primary crop is Paddy saves the
    log, and the clock reads 2025-09-20 18:45:07 UTC. *)
Lemma demo_voice_log_run :
  create_log_from_voice echo_world "farm_1" demo_audio "mr" []
  = (Returns
       (Logged
          {| voice_transcribed_text := demo_notes;
             structured_log :=
               {| notes := demo_notes;
                  log_type := Some "general";
                  date := Some "2025-09-20";
                  crop_name := None;
                  summary := Some demo_notes;
                  details := Some [] |} |}),
     snd (create_log_from_voice echo_world "farm_1" demo_audio "mr" [])).
Proof. vm_compute. reflexivity. Qed.




Section CrudProperties.

Variable W : World.

Lemma status_error_true (r : Response) :
  400 <= status_code_of r < 600 ->
  (400 <=? status_code_of r) && (status_code_of r <? 600) = true.
Proof.
  intro H. apply andb_true_iff. split; [apply Z.leb_le|apply Z.ltb_lt]; lia.
Qed.

Lemma status_error_false (r : Response) :
  ~ 400 <= status_code_of r < 600 ->
  (400 <=? status_code_of r) && (status_code_of r <? 600) = false.
Proof.
  intro H. apply andb_false_iff.
  destruct (Z.le_gt_cases 400 (status_code_of r)) as [Hle|Hgt].
  - right. apply Z.ltb_ge. lia.
  - left. apply Z.leb_gt. lia.
Qed.

(** What [_make_api_request] does with a supported method [verb]: one
    request with [timeout=15], then the status check and the JSON body,
    with every [RequestException] turned into [None]. *)
Lemma make_api_request_run (method endpoint : string)
  (json_data sent : option pyval) (verb : string) (t : trace) :
  (verb = "GET" /\ sent = None) \/ (verb = "POST" /\ sent = json_data) ->
  upper method = verb ->
  _make_api_request W method endpoint json_data t
  = (match http_request W t verb (API_BASE_URL W ++ endpoint) sent (Some 15)
     with
     | Raises e => if except_RequestException e then Returns PNone else Raises e
     | Returns r =>
         if (400 <=? status_code_of r) && (status_code_of r <? 600)
         then Returns PNone
         else match json_of r with
              | Returns v => Returns v
              | Raises e =>
                  if except_RequestException e then Returns PNone else Raises e
              end
     end,
     (t ++ [HttpRequest verb (API_BASE_URL W ++ endpoint) sent (Some 15)])%list).
Proof.
  intros Hverb Hupper.
  unfold _make_api_request, try_except, bind, requests_call, call, lift, ret,
    raise_for_status.
  rewrite Hupper.
  destruct Hverb as [[-> ->]|[-> ->]]; cbn [String.eqb Ascii.eqb Bool.eqb];
    cbv beta iota zeta.
  - destruct (http_request W t "GET" _ None (Some 15)) as [r|e];
      [|destruct (except_RequestException e); reflexivity].
    destruct ((400 <=? status_code_of r) && (status_code_of r <? 600));
      [reflexivity|].
    destruct (json_of r) as [v|e]; [reflexivity|].
    destruct (except_RequestException e); reflexivity.
  - destruct (http_request W t "POST" _ json_data (Some 15)) as [r|e];
      [|destruct (except_RequestException e); reflexivity].
    destruct ((400 <=? status_code_of r) && (status_code_of r <? 600));
      [reflexivity|].
    destruct (json_of r) as [v|e]; [reflexivity|].
    destruct (except_RequestException e); reflexivity.
Qed.

(** X1.  A request that fails gives [None]: when the call raises a
    [RequestException] (a timeout, a refused connection), when the answer
    has a 4xx or 5xx status, or when its body raises a [RequestException]
    on decoding, [_make_api_request] returns [None] after the one request
    it sent. *)
Theorem make_api_request_failure_returns_None
  (method endpoint : string) (json_data sent : option pyval) (verb : string)
  (t : trace) :
  (verb = "GET" /\ sent = None) \/ (verb = "POST" /\ sent = json_data) ->
  upper method = verb ->
  (exists msg,
      http_request W t verb (API_BASE_URL W ++ endpoint) sent (Some 15)
      = Raises (PyExc RequestException msg))
  \/ (exists r,
         http_request W t verb (API_BASE_URL W ++ endpoint) sent (Some 15)
         = Returns r
         /\ (400 <= status_code_of r < 600
             \/ exists msg, json_of r = Raises (PyExc RequestException msg))) ->
  _make_api_request W method endpoint json_data t
  = (Returns PNone,
     (t ++ [HttpRequest verb (API_BASE_URL W ++ endpoint) sent (Some 15)])%list).
Proof.
  intros Hverb Hupper Hfail.
  rewrite (make_api_request_run method endpoint json_data sent verb t Hverb Hupper).
  f_equal.
  destruct Hfail as [[msg ->]|(r & -> & [Hstatus|[msg Hjson]])].
  - reflexivity.
  - rewrite (status_error_true r Hstatus). reflexivity.
  - destruct ((400 <=? status_code_of r) && (status_code_of r <? 600));
      [reflexivity|].
    rewrite Hjson. reflexivity.
Qed.


(** X3.  Only a [RequestException] is swallowed.  An exception of another
    class raised by the request, or by [response.json()] on an answer
    with a good status, reaches the caller. *)
Theorem make_api_request_other_exception_propagates
  (method endpoint : string) (json_data sent : option pyval) (verb : string)
  (t : trace) (e : exn) :
  (verb = "GET" /\ sent = None) \/ (verb = "POST" /\ sent = json_data) ->
  upper method = verb ->
  except_RequestException e = false ->
  http_request W t verb (API_BASE_URL W ++ endpoint) sent (Some 15) = Raises e
  \/ (exists r,
         http_request W t verb (API_BASE_URL W ++ endpoint) sent (Some 15)
         = Returns r
         /\ ~ 400 <= status_code_of r < 600
         /\ json_of r = Raises e) ->
  fst (_make_api_request W method endpoint json_data t) = Raises e.
Proof.
  intros Hverb Hupper He Hraise.
  rewrite (make_api_request_run method endpoint json_data sent verb t Hverb Hupper).
  cbn [fst].
  destruct Hraise as [->|(r & -> & Hstatus & Hjson)].
  - now rewrite He.
  - rewrite (status_error_false r Hstatus), Hjson. now rewrite He.
Qed.

(** X4.  [get_user_profile] sends exactly one request, for the farms of
    the user.  It returns [None] when that request fails, and on a good
    answer the first item of a list of farms, or [None] when the body is
    an empty list or no list at all. *)
Theorem get_user_profile_first_farm_or_None (user_id : string) (t : trace) :
  snd (get_user_profile W user_id t)
  = (t ++ [HttpRequest "GET"
             (API_BASE_URL W ++ "/api/users/" ++ user_id ++ "/farms/")
             None (Some 15)])%list
  /\ ((exists msg,
          http_request W t "GET"
            (API_BASE_URL W ++ "/api/users/" ++ user_id ++ "/farms/") None
            (Some 15) = Raises (PyExc RequestException msg)) ->
      fst (get_user_profile W user_id t) = Returns PNone)
  /\ (forall r,
         http_request W t "GET"
           (API_BASE_URL W ++ "/api/users/" ++ user_id ++ "/farms/") None
           (Some 15) = Returns r ->
         400 <= status_code_of r < 600 ->
         fst (get_user_profile W user_id t) = Returns PNone)
  /\ (forall r v,
         http_request W t "GET"
           (API_BASE_URL W ++ "/api/users/" ++ user_id ++ "/farms/") None
           (Some 15) = Returns r ->
         ~ 400 <= status_code_of r < 600 ->
         json_of r = Returns v ->
         fst (get_user_profile W user_id t)
         = Returns match v with
                   | PList (primary_farm :: _) => primary_farm
                   | _ => PNone
                   end).
Proof.
  unfold get_user_profile, bind.
  rewrite (make_api_request_run "GET" _ None None "GET" t
             (or_introl (conj eq_refl eq_refl)) eq_refl).
  split; [|split; [|split]].
  - destruct (http_request W t "GET" _ None (Some 15)) as [r|e].
    + destruct ((400 <=? status_code_of r) && (status_code_of r <? 600));
        [reflexivity|].
      destruct (json_of r) as [[| | | | |[|p items]|]|e]; try reflexivity.
      destruct (except_RequestException e); reflexivity.
    + destruct (except_RequestException e); reflexivity.
  - intros [msg ->]. reflexivity.
  - intros r -> Hstatus. rewrite (status_error_true r Hstatus). reflexivity.
  - intros r v -> Hstatus ->. rewrite (status_error_false r Hstatus).
    destruct v as [| | | | |[|p items]|]; reflexivity.
Qed.

End CrudProperties.

Section SpeechProperties.

Variable W : World.

(** What [transcribe_audio_with_google] does once the speech client is
    there, by the outcome of each call. *)
Lemma transcribe_run (audio_bytes : bytes) (language_code : string)
  (t : trace) :
  speech_client (app_state W) = true ->
  transcribe_audio_with_google W audio_bytes language_code t
  = match audio_from_file W t audio_bytes with
    | Raises e =>
        (Raises (HTTPException 500
                   ("Failed to transcribe audio: " ++ str_of_exn W e)),
         (t ++ [AudioFromFile audio_bytes])%list)
    | Returns segment =>
        let t1 := (t ++ [AudioFromFile audio_bytes])%list in
        let t2 := (t1 ++ [SpeechRecognize (language_code ++ "-IN")
                            (frame_rate segment) (channels segment)
                            (wav_export segment)])%list in
        match speech_recognize W t1 (language_code ++ "-IN")
                (frame_rate segment) (channels segment) (wav_export segment)
        with
        | Raises e =>
            (Raises (HTTPException 500
                       ("Failed to transcribe audio: " ++ str_of_exn W e)), t2)
        | Returns [] => (Returns "", t2)
        | Returns ([] :: _) =>
            (Raises (HTTPException 500
                       ("Failed to transcribe audio: "
                        ++ "list index out of range")), t2)
        | Returns ((transcript :: _) :: _) => (Returns transcript, t2)
        end
    end.
Proof.
  intro Hclient.
  unfold transcribe_audio_with_google, try_except, bind, call, lift, ret, raise.
  rewrite Hclient. cbn [negb]. cbv beta zeta.
  destruct (audio_from_file W t audio_bytes) as [segment|e];
    [|destruct e; reflexivity].
  cbv beta iota.
  destruct (speech_recognize W _ _ _ _ _) as [[|[|transcript alternatives] results]|e];
    reflexivity.
Qed.

Lemma prefix_append (p s : string) : String.prefix p (p ++ s) = true.
Proof.
  induction p as [|c p IH]; cbn; [destruct s; reflexivity|].
  destruct (ascii_dec c c) as [_|Hne]; [exact IH|contradiction].
Qed.

(** X5.  [transcribe_audio_with_google] raises nothing but
    [HTTPException]: 503 when the speech client was not loaded, before
    any call, and otherwise 500 with a detail that opens with
    ["Failed to transcribe audio: "], whatever the decoding or the
    recognition raised. *)
Theorem transcribe_audio_raises_only_HTTPException
  (audio_bytes : bytes) (language_code : string) (t t' : trace) (e : exn) :
  transcribe_audio_with_google W audio_bytes language_code t = (Raises e, t') ->
  (speech_client (app_state W) = false
   /\ e = HTTPException 503 "Speech client not initialized." /\ t' = t)
  \/ (speech_client (app_state W) = true
      /\ exists detail,
           e = HTTPException 500 detail
           /\ String.prefix "Failed to transcribe audio: " detail = true).
Proof.
  destruct (speech_client (app_state W)) eqn:Hclient.
  - rewrite (transcribe_run audio_bytes language_code t Hclient). cbv zeta.
    intro H. right. split; [reflexivity|].
    destruct (audio_from_file W t audio_bytes) as [segment|e0].
    + destruct (speech_recognize W _ _ _ _ _)
        as [[|[|transcript alternatives] results]|e1];
        try discriminate; injection H as <- _.
      all: eexists; (split; [reflexivity|]).
      all: first [reflexivity|apply (prefix_append "Failed to transcribe audio: ")].
    + injection H as <- _. eexists.
      split; [reflexivity|apply (prefix_append "Failed to transcribe audio: ")].
  - unfold transcribe_audio_with_google. rewrite Hclient. cbn [negb].
    unfold raise. intro H. injection H as <- <-. left. now repeat split.
Qed.

(** X6.  Of what the speech service recognised, only the first
    alternative of the first result is returned; the results after the
    first are dropped, and an answer with no result gives the empty
    transcript. *)
Theorem transcribe_audio_returns_first_alternative_of_first_result
  (audio_bytes : bytes) (language_code : string) (t : trace)
  (segment : AudioSegment) (results : list (list string)) :
  speech_client (app_state W) = true ->
  audio_from_file W t audio_bytes = Returns segment ->
  speech_recognize W (t ++ [AudioFromFile audio_bytes])%list
    (language_code ++ "-IN") (frame_rate segment) (channels segment)
    (wav_export segment) = Returns results ->
  (results = [] ->
   fst (transcribe_audio_with_google W audio_bytes language_code t)
   = Returns "")
  /\ (forall transcript alternatives others,
         results = (transcript :: alternatives) :: others ->
         fst (transcribe_audio_with_google W audio_bytes language_code t)
         = Returns transcript).
Proof.
  intros Hclient Haudio Hspeech.
  rewrite (transcribe_run audio_bytes language_code t Hclient).
  rewrite Haudio. cbv zeta. rewrite Hspeech.
  split.
  - intros ->. reflexivity.
  - intros transcript alternatives others ->. reflexivity.
Qed.

End SpeechProperties.

Section LogProperties.

Variable W : World.

(** [save_log_entry] is one POST of the log with [timeout=15]. *)
Lemma save_log_entry_run (farm_id : string) (log_data : pyval) (t : trace) :
  save_log_entry W farm_id log_data t
  = (match http_request W t "POST" (activities_url W farm_id) (Some log_data)
             (Some 15) with
     | Raises e => if except_RequestException e then Returns PNone else Raises e
     | Returns r =>
         if (400 <=? status_code_of r) && (status_code_of r <? 600)
         then Returns PNone
         else match json_of r with
              | Returns v => Returns v
              | Raises e =>
                  if except_RequestException e then Returns PNone else Raises e
              end
     end,
     (t ++ [HttpRequest "POST" (activities_url W farm_id) (Some log_data)
              (Some 15)])%list).
Proof.
  unfold save_log_entry, activities_url.
  apply (make_api_request_run W "POST" _ (Some log_data) (Some log_data) "POST" t);
    [right; now split|reflexivity].
Qed.

(** X7.  [create_log_entry] posts four fields of the request: the farm
    id, the log type, the notes and the details.  The [date], the
    [crop_name] and the [summary] of the request are not sent. *)
Theorem create_log_entry_posts_four_fields
  (farm_id : string) (log_request : LogEntry) (t : trace) :
  snd (create_log_entry W farm_id log_request t)
  = (t ++ [HttpRequest "POST"
             (API_BASE_URL W ++ "/api/farms/" ++ farm_id ++ "/activities")
             (Some (PDict
                      [ ("farmId", PStr farm_id);
                        ("activityType",
                          optional_str_value (log_type log_request));
                        ("description", PStr (notes log_request));
                        ("details",
                          optional_dict_value (details log_request)) ]))
             (Some 15)])%list
  /\ (forall other : LogEntry,
         notes other = notes log_request ->
         log_type other = log_type log_request ->
         details other = details log_request ->
         create_log_entry W farm_id other t
         = create_log_entry W farm_id log_request t).
Proof.
  split.
  - unfold create_log_entry, bind. rewrite save_log_entry_run.
    destruct (http_request W t "POST" _ _ (Some 15)) as [r|e].
    + destruct ((400 <=? status_code_of r) && (status_code_of r <? 600));
        [reflexivity|].
      destruct (json_of r) as [v|e]; [destruct (truthy v); reflexivity|].
      destruct (except_RequestException e); reflexivity.
    + destruct (except_RequestException e); reflexivity.
  - intros other Hnotes Htype Hdetails. unfold create_log_entry.
    now rewrite Hnotes, Htype, Hdetails.
Qed.

(** X8.  [create_log_entry] answers HTTP 500 both when the POST fails and
    when it succeeds with a body that is falsy in Python ([null], [{}],
    [[]], [0], the empty string); a truthy body is returned as it is. *)
Theorem create_log_entry_answer
  (farm_id : string) (log_request : LogEntry) (t : trace) (r : Response)
  (v : pyval) :
  http_request W t "POST"
    (API_BASE_URL W ++ "/api/farms/" ++ farm_id ++ "/activities")
    (Some (PDict
             [ ("farmId", PStr farm_id);
               ("activityType", optional_str_value (log_type log_request));
               ("description", PStr (notes log_request));
               ("details", optional_dict_value (details log_request)) ]))
    (Some 15) = Returns r ->
  json_of r = Returns v ->
  fst (create_log_entry W farm_id log_request t)
  = if (400 <=? status_code_of r) && (status_code_of r <? 600)
    then Raises (HTTPException 500 "Failed to save log entry via API.")
    else if truthy v then Returns v
    else Raises (HTTPException 500 "Failed to save log entry via API.").
Proof.
  intros Hr Hv. unfold create_log_entry, bind. rewrite save_log_entry_run.
  unfold activities_url. rewrite Hr.
  destruct ((400 <=? status_code_of r) && (status_code_of r <? 600));
    [reflexivity|].
  rewrite Hv. destruct (truthy v); reflexivity.
Qed.

End LogProperties.

Section VoiceLogRun.

Variable W : World.

(** The run of [create_log_from_voice] once a transcript is there. *)
Lemma create_log_from_voice_run (farm_id : string) (audio_file : bytes)
  (language_code : string) (t t1 : trace) (text : string) :
  audio_file <> [] ->
  transcribe_audio_with_google W audio_file language_code t
  = (Returns text, t1) ->
  text <> "" ->
  let t2 := (t1 ++ [DatetimeNow; DatetimeNow])%list in
  let timestamp := timestamp_of (datetime_now W (t1 ++ [DatetimeNow])%list) in
  let payload := voice_log_payload farm_id text timestamp in
  create_log_from_voice W farm_id audio_file language_code t
  = (match fst (save_log_entry W farm_id (PDict payload) t2) with
     | Raises e => Raises e
     | Returns saved =>
         if truthy saved then
           match fromisoformat (replace "Z" "+00:00" timestamp) with
           | Raises e => Raises e
           | Returns parsed =>
               match astimezone_utc (local_utcoffset W) parsed with
               | Raises e => Raises e
               | Returns in_utc =>
                   Returns
                     (Logged
                        {| voice_transcribed_text := text;
                           structured_log :=
                             {| notes := text;
                                log_type := Some "general";
                                date := Some (strftime_Y_m_d in_utc);
                                crop_name := None;
                                summary := Some text;
                                details := Some [] |} |})
               end
           end
         else Raises (HTTPException 500
                        "Failed to save log entry to the database.")
     end,
     (t2 ++ [HttpRequest "POST" (activities_url W farm_id)
               (Some (PDict payload)) (Some 15)])%list).
Proof.
  intros Hne Htext Hnonempty. cbv zeta.
  unfold create_log_from_voice.
  destruct audio_file as [|b bs]; [contradiction|].
  unfold bind at 1. rewrite Htext.
  apply String.eqb_neq in Hnonempty. rewrite Hnonempty.
  unfold bind at 1. rewrite generated_run.
  unfold bind at 1. rewrite utc_timestamp_run.
  fold (timestamp_of (datetime_now W t1)).
  fold (timestamp_of (datetime_now W (t1 ++ [DatetimeNow])%list)).
  set (ts1 := timestamp_of (datetime_now W t1)).
  set (ts2 := timestamp_of (datetime_now W (t1 ++ [DatetimeNow])%list)).
  cbn [entries_set String.eqb Ascii.eqb Bool.eqb].
  fold (voice_log_payload farm_id text ts2).
  replace ((t1 ++ [DatetimeNow]) ++ [DatetimeNow])%list
    with (t1 ++ [DatetimeNow; DatetimeNow])%list
    by (rewrite <- app_assoc; reflexivity).
  unfold bind at 1. rewrite save_log_entry_run. cbn [fst].
  set (saved_outcome :=
         match http_request W (t1 ++ [DatetimeNow; DatetimeNow])%list "POST"
                 (activities_url W farm_id)
                 (Some (PDict (voice_log_payload farm_id text ts2))) (Some 15)
         with
         | Returns r =>
             if (400 <=? status_code_of r) && (status_code_of r <? 600)
             then Returns PNone
             else match json_of r with
                  | Returns v => Returns v
                  | Raises e =>
                      if except_RequestException e then Returns PNone
                      else Raises e
                  end
         | Raises e => if except_RequestException e then Returns PNone
                       else Raises e
         end).
  destruct saved_outcome as [saved|e]; [|reflexivity].
  destruct (truthy saved); cbn [negb]; [|reflexivity].
  unfold bind, lift, ret.
  cbn [dict_getitem entries_get voice_log_payload String.eqb Ascii.eqb
       Bool.eqb py_replace].
  destruct (fromisoformat (replace "Z" "+00:00" ts2)) as [parsed|e];
    [|reflexivity].
  destruct (astimezone_utc (local_utcoffset W) parsed) as [in_utc|e];
    [|reflexivity].
  cbn [entries_get_default entries_get String.eqb Ascii.eqb Bool.eqb
       as_str as_optional_str as_optional_dict].
  reflexivity.
Qed.

(** X9.  A transcript that is not the empty string, one of white space
    included, is always posted: the run reads the clock twice and then
    posts a log of type ["general"] whose description is the transcript
    and whose timestamp is the second reading of the clock. *)
Theorem create_log_from_voice_posts_every_transcript
  (farm_id : string) (audio_file : bytes) (language_code : string)
  (t : trace) (text : string) :
  audio_file <> [] ->
  fst (transcribe_audio_with_google W audio_file language_code t)
  = Returns text ->
  text <> "" ->
  snd (create_log_from_voice W farm_id audio_file language_code t)
  = (snd (transcribe_audio_with_google W audio_file language_code t)
     ++ [ DatetimeNow; DatetimeNow;
          HttpRequest "POST"
            (API_BASE_URL W ++ "/api/farms/" ++ farm_id ++ "/activities")
            (Some (PDict
                     (voice_log_payload farm_id text
                        (timestamp_of
                           (datetime_now W
                              (snd (transcribe_audio_with_google W audio_file
                                      language_code t)
                               ++ [DatetimeNow])%list)))))
            (Some 15) ])%list.
Proof.
  intros Hne Htext Hnonempty.
  destruct (transcribe_audio_with_google W audio_file language_code t)
    as [o t1] eqn:Hrun.
  cbn [fst snd] in Htext |- *. subst o.
  rewrite (create_log_from_voice_run farm_id audio_file language_code t t1
             text Hne Hrun Hnonempty).
  cbn [snd]. rewrite <- app_assoc. reflexivity.
Qed.

(** X10.  When the backend accepts the POST and answers with a body that
    is falsy in Python ([null], [{}], [[]], [0]), the voice-log endpoint
    raises HTTP 500 although the log was posted. *)
Theorem create_log_from_voice_falsy_answer_is_an_error
  (farm_id : string) (audio_file : bytes) (language_code : string)
  (t t1 : trace) (text : string) (r : Response) (v : pyval) :
  audio_file <> [] ->
  transcribe_audio_with_google W audio_file language_code t
  = (Returns text, t1) ->
  text <> "" ->
  http_request W (t1 ++ [DatetimeNow; DatetimeNow])%list "POST"
    (API_BASE_URL W ++ "/api/farms/" ++ farm_id ++ "/activities")
    (Some (PDict
             (voice_log_payload farm_id text
                (timestamp_of (datetime_now W (t1 ++ [DatetimeNow])%list)))))
    (Some 15) = Returns r ->
  ~ 400 <= status_code_of r < 600 ->
  json_of r = Returns v ->
  truthy v = false ->
  fst (create_log_from_voice W farm_id audio_file language_code t)
  = Raises (HTTPException 500 "Failed to save log entry to the database.")
  /\ In (HttpRequest "POST"
           (API_BASE_URL W ++ "/api/farms/" ++ farm_id ++ "/activities")
           (Some (PDict
                    (voice_log_payload farm_id text
                       (timestamp_of
                          (datetime_now W (t1 ++ [DatetimeNow])%list)))))
           (Some 15))
       (snd (create_log_from_voice W farm_id audio_file language_code t)).
Proof.
  intros Hne Hrun Hnonempty Hr Hstatus Hv Hfalsy.
  rewrite (create_log_from_voice_run farm_id audio_file language_code t t1
             text Hne Hrun Hnonempty).
  cbv zeta. cbn [fst snd]. split.
  - rewrite save_log_entry_run. cbn [fst]. unfold activities_url.
    rewrite Hr, (status_error_false r Hstatus), Hv, Hfalsy. reflexivity.
  - apply in_or_app. right. left. reflexivity.
Qed.

Lemma zero_pad_length (width : nat) (n : Z) :
  String.length (zero_pad width n) = width.
Proof.
  revert n. induction width as [|w IH]; intro n; [reflexivity|].
  cbn [zero_pad]. 
  assert (Happ : forall a b, String.length (a ++ b)
                             = (String.length a + String.length b)%nat).
  { intros a b. induction a as [|c a IHa]; cbn; [reflexivity|now rewrite IHa]. }
  rewrite Happ, IH. cbn. lia.
Qed.

Lemma substring_prefix (a b : string) :
  substring 0 (String.length a) (a ++ b) = a.
Proof.
  induction a as [|c a IH]; cbn; [destruct b; reflexivity|].
  now rewrite IH.
Qed.

(** The date that [strftime] prints is the first ten characters of the
    timestamp. *)
Lemma timestamp_date_prefix (d : datetime) :
  substring 0 10 (timestamp_of d)
  = strftime_Y_m_d {| wall := d; utcoffset := Some 0 |}.
Proof.
  unfold timestamp_of. rewrite isoformat_utc.
  rewrite replace_offset_by_Z by apply isoformat_wall_iso_chars.
  unfold isoformat_wall, strftime_Y_m_d. cbn [wall].
  set (rest := "T" ++ zero_pad 2 (hour d) ++ ":" ++ zero_pad 2 (minute d)
               ++ ":" ++ zero_pad 2 (second d)
               ++ (if microsecond d =? 0 then ""
                   else "." ++ zero_pad 6 (microsecond d))).
  set (printed := zero_pad 4 (year d) ++ "-" ++ zero_pad 2 (month d) ++ "-"
                  ++ zero_pad 2 (day d)).
  replace ((zero_pad 4 (year d) ++ "-" ++ zero_pad 2 (month d) ++ "-"
            ++ zero_pad 2 (day d) ++ rest) ++ "Z")
    with (printed ++ (rest ++ "Z")).
  - replace 10%nat with (String.length printed); [apply substring_prefix|].
    unfold printed.
    assert (Happ : forall a b, String.length (a ++ b)
                               = (String.length a + String.length b)%nat).
    { intros a b. induction a as [|c a IHa]; cbn;
        [reflexivity|now rewrite IHa]. }
    rewrite !Happ, !zero_pad_length. reflexivity.
  - unfold printed. rewrite !string_app_assoc. reflexivity.
Qed.

(** X11.  The date of the answered record and the log kept by the backend
    agree: the [date] is the first ten characters of the [timestamp] that
    was posted, and the posted [description] is the transcript that is
    answered. *)
Theorem create_log_from_voice_date_is_timestamp_prefix
  (Hclock : forall t, valid_datetime (datetime_now W t))
  (farm_id : string) (audio_file : bytes) (language_code : string)
  (t t' : trace) (response : VoiceLogResponse) :
  create_log_from_voice W farm_id audio_file language_code t
  = (Returns (Logged response), t') ->
  exists t2 payload timestamp,
    t' = (t2 ++ [HttpRequest "POST"
                   (API_BASE_URL W ++ "/api/farms/" ++ farm_id ++ "/activities")
                   (Some (PDict payload)) (Some 15)])%list
    /\ entries_get payload "timestamp" = Some (PStr timestamp)
    /\ entries_get payload "description"
       = Some (PStr (voice_transcribed_text response))
    /\ date (structured_log response) = Some (substring 0 10 timestamp).
Proof.
  intro H.
  assert (Hne : audio_file <> []).
  { intros ->. discriminate. }
  destruct (transcribe_audio_with_google W audio_file language_code t)
    as [[text|e] t1] eqn:Hrun.
  2:{ unfold create_log_from_voice, bind in H.
      destruct audio_file; [contradiction|]. rewrite Hrun in H. discriminate. }
  assert (Hnonempty : text <> "").
  { intros ->. unfold create_log_from_voice, bind in H.
    destruct audio_file; [contradiction|]. rewrite Hrun in H. discriminate. }
  rewrite (create_log_from_voice_run farm_id audio_file language_code t t1
             text Hne Hrun Hnonempty) in H.
  cbv zeta in H.
  set (d2 := datetime_now W (t1 ++ [DatetimeNow])%list) in *.
  unfold timestamp_of at 2 in H.
  rewrite timestamp_back_to_isoformat in H.
  unfold fromisoformat in H.
  rewrite parse_isoformat_isoformat in H by apply Hclock.
  unfold astimezone_utc in H. cbn [utcoffset wall Z.eqb] in H.
  assert (Hyear : (1 <=? year d2) && (year d2 <=? 9999) = true).
  { destruct (Hclock (t1 ++ [DatetimeNow])%list) as (Hy & _). fold d2 in Hy.
    apply andb_true_iff. split; apply Z.leb_le; lia. }
  rewrite Hyear in H.
  destruct (fst (save_log_entry W farm_id
                   (PDict (voice_log_payload farm_id text (timestamp_of d2)))
                   (t1 ++ [DatetimeNow; DatetimeNow])%list)) as [saved|e];
    [|discriminate].
  destruct (truthy saved); [|discriminate].
  injection H as <- <-.
  exists (t1 ++ [DatetimeNow; DatetimeNow])%list,
    (voice_log_payload farm_id text (timestamp_of d2)), (timestamp_of d2).
  split; [reflexivity|]. split; [reflexivity|]. split; [reflexivity|].
  cbn [structured_log date]. now rewrite timestamp_date_prefix.
Qed.

End VoiceLogRun.

Section HelperEndpointProperties.

Variable W : World.


(** X13.  [save_log_to_api] never raises and always answers a truthy
    dict.  With an empty farm id or a falsy log it answers the status
    ["skipped"] without sending anything; when the POST fails or gives a
    falsy body it answers ["failed"]; an exception that
    [_make_api_request] lets through is answered as the status ["error"]
    with its text. *)
Theorem save_log_to_api_answers_a_status
  (farm_id : string) (structured_log : pyval) (t : trace) :
  exists answer,
    fst (save_log_to_api W farm_id structured_log t) = Returns answer
    /\ truthy answer = true
    /\ (farm_id = "" \/ truthy structured_log = false ->
        save_log_to_api W farm_id structured_log t
        = (Returns (status_reason "skipped" "Missing farm_id or structured_log"),
           t))
    /\ (farm_id <> "" -> truthy structured_log = true ->
        snd (save_log_to_api W farm_id structured_log t)
        = (t ++ [HttpRequest "POST"
                   (API_BASE_URL W ++ "/api/farms/" ++ farm_id ++ "/activities")
                   (Some structured_log) (Some 15)])%list
        /\ (forall saved,
               fst (save_log_entry W farm_id structured_log t) = Returns saved ->
               answer = if truthy saved then saved
                        else status_reason "failed" "API error")
        /\ (forall e,
               fst (save_log_entry W farm_id structured_log t) = Raises e ->
               answer = status_reason "error" (str_of_exn W e))).
Proof.
  unfold save_log_to_api.
  destruct (String.eqb farm_id "") eqn:Hfarm.
  - eexists. split; [reflexivity|]. split; [reflexivity|].
    split; [reflexivity|].
    apply String.eqb_eq in Hfarm. intros Hne. contradiction.
  - destruct (truthy structured_log) eqn:Hlog; cbn [negb orb].
    2:{ eexists. split; [reflexivity|]. split; [reflexivity|].
        split; [reflexivity|]. intros _ H. discriminate. }
    apply String.eqb_neq in Hfarm.
    unfold try_except, bind. rewrite save_log_entry_run. cbn [fst].
    fold (activities_url W farm_id).
    destruct (match http_request W t "POST" (activities_url W farm_id)
                      (Some structured_log) (Some 15) with
              | Returns r =>
                  if (400 <=? status_code_of r) && (status_code_of r <? 600)
                  then Returns PNone
                  else match json_of r with
                       | Returns v => Returns v
                       | Raises e =>
                           if except_RequestException e then Returns PNone
                           else Raises e
                       end
              | Raises e => if except_RequestException e then Returns PNone
                            else Raises e
              end) as [saved|e] eqn:Hsaved.
    + destruct (truthy saved) eqn:Htruthy; cbn [negb].
      * exists saved. split; [reflexivity|]. split; [exact Htruthy|].
        split; [intros [H|H]; [contradiction|discriminate]|].
        intros _ _. split; [reflexivity|]. split.
        -- intros saved' H. injection H as <-. now rewrite Htruthy.
        -- intros e H. discriminate.
      * eexists. split; [reflexivity|]. split; [reflexivity|].
        split; [intros [H|H]; [contradiction|discriminate]|].
        intros _ _. split; [reflexivity|]. split.
        -- intros saved' H. injection H as <-. now rewrite Htruthy.
        -- intros e H. discriminate.
    + cbn [except_Exception]. eexists. split; [reflexivity|].
      split; [reflexivity|].
      split; [intros [H|H]; [contradiction|discriminate]|].
      intros _ _. split; [reflexivity|]. split.
      * intros saved H. discriminate.
      * intros e' H. injection H as <-. reflexivity.
Qed.

End HelperEndpointProperties.

Section AlertProperties.

Variable W : World.

Lemma get_proactive_alerts_run (user_id : string) (t : trace) :
  fst (get_proactive_alerts W user_id t)
  = match http_request W t "GET" (alerts_url W user_id) None None with
    | Raises e => Raises e
    | Returns r =>
        match json_of r with
        | Raises e => Raises e
        | Returns raw_alerts =>
            match py_iter raw_alerts with
            | Raises e => Raises e
            | Returns items =>
                Returns (flat_map (fun a => match Alert_from a with
                                            | Returns alert => [alert]
                                            | Raises _ => []
                                            end) items)
            end
        end
    end.
Proof.
  unfold get_proactive_alerts, bind, requests_call, call, lift, ret, alerts_url.
  destruct (http_request W t "GET" _ None None) as [r|e]; [|reflexivity].
  destruct (json_of r) as [raw|e]; [|reflexivity].
  destruct (py_iter raw); reflexivity.
Qed.

Lemma no_alert_from_strings {A} (f : A -> string) (l : list A) :
  flat_map (fun a => match Alert_from a with
                     | Returns alert => [alert]
                     | Raises _ => []
                     end) (map (fun x => PStr (f x)) l) = [].
Proof. induction l as [|x l IH]; [reflexivity|exact IH]. Qed.


Lemma required_str_returns (d : list (string * pyval)) (key s : string) :
  required_str d key = Returns s <-> entries_get d key = Some (PStr s).
Proof.
  unfold required_str.
  destruct (entries_get d key) as [[| | | | | |]|]; cbn; split; intro H;
    try discriminate; now injection H as ->.
Qed.

(** An item becomes an alert exactly when it is a dict that holds the
    five fields as strings. *)
Lemma Alert_from_returns (a : pyval) (alert : Alert) :
  Alert_from a = Returns alert <->
  exists d,
    a = PDict d
    /\ entries_get d "id" = Some (PStr (alert_id alert))
    /\ entries_get d "severity" = Some (PStr (severity alert))
    /\ entries_get d "title" = Some (PStr (title alert))
    /\ entries_get d "message" = Some (PStr (message alert))
    /\ entries_get d "suggestion" = Some (PStr (suggestion alert)).
Proof.
  split.
  - destruct a as [| | | | | |d]; try discriminate. cbn [Alert_from].
    destruct (required_str d "id") as [i|] eqn:Hi; [|discriminate].
    destruct (required_str d "severity") as [sv|] eqn:Hsv; [|discriminate].
    destruct (required_str d "title") as [ti|] eqn:Hti; [|discriminate].
    destruct (required_str d "message") as [m|] eqn:Hm; [|discriminate].
    destruct (required_str d "suggestion") as [sg|] eqn:Hsg; [|discriminate].
    intro H. injection H as <-. exists d. cbn.
    apply required_str_returns in Hi, Hsv, Hti, Hm, Hsg. now repeat split.
  - intros (d & -> & Hi & Hsv & Hti & Hm & Hsg). cbn [Alert_from].
    apply required_str_returns in Hi, Hsv, Hti, Hm, Hsg.
    rewrite Hi, Hsv, Hti, Hm, Hsg. destruct alert; reflexivity.
Qed.


(** X16.  The alerts endpoint has no [try] around its request: an
    exception of [requests.get] or of [.json()] reaches the caller, and a
    body that cannot be iterated ([null], a number, a boolean) raises
    [TypeError]. *)
Theorem get_proactive_alerts_propagates_failures
  (user_id : string) (t : trace) :
  (forall e,
      http_request W t "GET"
        (API_BASE_URL W ++ "/api/users/" ++ user_id ++ "/alerts/") None None
      = Raises e ->
      fst (get_proactive_alerts W user_id t) = Raises e)
  /\ (forall r e,
         http_request W t "GET"
           (API_BASE_URL W ++ "/api/users/" ++ user_id ++ "/alerts/") None None
         = Returns r ->
         json_of r = Raises e ->
         fst (get_proactive_alerts W user_id t) = Raises e)
  /\ (forall r v,
         http_request W t "GET"
           (API_BASE_URL W ++ "/api/users/" ++ user_id ++ "/alerts/") None None
         = Returns r ->
         json_of r = Returns v ->
         v = PNone \/ (exists b, v = PBool b) \/ (exists n, v = PInt n)
         \/ (exists num den, v = PFloat num den) ->
         fst (get_proactive_alerts W user_id t)
         = Raises (PyExc TypeError "object is not iterable")).
Proof.
  rewrite get_proactive_alerts_run. unfold alerts_url.
  split; [|split].
  - intros e ->. reflexivity.
  - intros r e -> ->. reflexivity.
  - intros r v -> -> [->|[[b ->]|[[n ->]|(num & den & ->)]]]; reflexivity.
Qed.

End AlertProperties.

Section MoreChatProperties.

Variable W : World.

Lemma load_faiss_index_missing (d : Disk) (index_path docs_path : string) :
  path_exists d index_path = false \/ path_exists d docs_path = false
  \/ (exists e, faiss_read_index d index_path = Raises e)
  \/ (exists e, read_text d docs_path = Raises e) ->
  load_faiss_index d index_path docs_path = None.
Proof.
  unfold load_faiss_index.
  intros [H|[H|[[e H]|[e H]]]]; rewrite H; cbn [negb orb]; try reflexivity.
  - now rewrite orb_true_r.
  - destruct (negb (path_exists d index_path) || negb (path_exists d docs_path));
      reflexivity.
  - destruct (negb (path_exists d index_path) || negb (path_exists d docs_path));
      [reflexivity|].
    destruct (faiss_read_index d index_path); reflexivity.
Qed.

(** X17.  When the startup did not load the index, because a file of the
    vector store is missing or cannot be read, the chat endpoint never
    answers: every request ends in an exception. *)
Theorem chat_without_index_never_answers
  (s : Startup) (user_id : string) (text_query : option string)
  (language_code : string) (image_file audio_file : option bytes)
  (t : trace) :
  app_state W = lifespan_startup s ->
  path_exists (disk s) VECTOR_DB_PATH = false
  \/ path_exists (disk s) DOCS_PATH = false
  \/ (exists e, faiss_read_index (disk s) VECTOR_DB_PATH = Raises e)
  \/ (exists e, read_text (disk s) DOCS_PATH = Raises e) ->
  exists e,
    fst (chat_with_assistant W user_id text_query language_code image_file
           audio_file t) = Raises e.
Proof.
  intros Hstate Hmissing.
  assert (Hnone : faiss_index_docs (app_state W) = None).
  { rewrite Hstate. cbn [faiss_index_docs lifespan_startup].
    apply load_faiss_index_missing. exact Hmissing. }
  destruct (chat_with_assistant W user_id text_query language_code image_file
              audio_file t) as [[resp|e] t'] eqn:H;
    [exfalso|exists e; reflexivity].
  unfold chat_with_assistant in H.
  apply bind_returns in H as (profile & t1 & _ & H).
  destruct (truthy profile); cbn [negb] in H; [|discriminate].
  apply bind_returns in H as (source_language & t2 & _ & H).
  apply bind_returns in H as ([user_query transcribed] & t3 & _ & H).
  destruct user_query as [[|c q]|]; try discriminate.
  apply bind_returns in H as (village & t4 & _ & H).
  apply bind_returns in H as (weather_data & t5 & _ & H).
  apply bind_returns in H as (predictions & t6 & _ & H).
  apply bind_returns in H as (loaded & t7 & Hload & _).
  rewrite Hnone in Hload. discriminate.
Qed.

Lemma transcribe_adds (audio_bytes : bytes) (language_code : string) :
  adds (transcribe_audio_with_google W audio_bytes language_code)
    not_a_translation.
Proof.
  unfold transcribe_audio_with_google. adds_auto; reflexivity.
Qed.

Lemma translate_text_from_run (text : string) (src : pyval) (dest : string)
  (t t' : trace) (result : string) :
  translate_text_from W text src dest t = (Returns result, t') ->
  exists evs,
    t' = (t ++ Call_translate_text text (format_value W src) dest :: evs)%list
    /\ Forall not_a_translation evs.
Proof.
  unfold translate_text_from. intro H.
  assert (Hrun : forall s,
             translate_text W text s dest t = (Returns result, t') ->
             exists evs,
               t' = (t ++ Call_translate_text text s dest :: evs)%list
               /\ Forall not_a_translation evs).
  { intros s Hs.
    destruct (translate_text_run W text s dest t) as (r & evs & Hr & Hall & _).
    rewrite Hr in Hs. injection Hs as _ <-. now exists evs. }
  destruct src; try (apply Hrun; exact H); discriminate.
Qed.

(** X18.  A spoken query that gets a response enters [translate_text]
    three times: on the transcript, from the language of the profile to
    English; inside the synthesis step, from English to English; and on
    the answer, from English to [language_code].  The text query sent
    along with the audio is never read. *)
Theorem chat_audio_enters_translate_text_three_times
  (user_id : string) (text_query : option string) (language_code : string)
  (image_file : option bytes) (audio_bytes : bytes) (t t' : trace)
  (resp : ChatResponse) :
  chat_with_assistant W user_id text_query language_code image_file
    (Some audio_bytes) t = (Returns resp, t') ->
  (exists transcript source user_query english,
      transcribed_text resp = Some transcript
      /\ translate_calls t'
         = (translate_calls t
            ++ [ Call_translate_text transcript source "en";
                 Call_translate_text user_query "en" "en";
                 Call_translate_text english "en" language_code ])%list)
  /\ (forall other_query,
         chat_with_assistant W user_id other_query language_code image_file
           (Some audio_bytes) t = (Returns resp, t')).
Proof.
  intro H. split; [|intro other_query; exact H].
  unfold chat_with_assistant in H.
  apply bind_returns in H as (profile & t1 & Hprof & H).
  destruct (adds_run _ _ _ _ _ (get_user_profile_adds_no_translation W user_id)
              Hprof) as (evs1 & -> & Hall1).
  destruct (truthy profile); cbn [negb] in H; [|discriminate].
  apply bind_returns in H as (source_language & t2 & Hsl & H).
  apply lift_returns in Hsl as [_ ->].
  apply bind_returns in H as ([user_query transcribed] & t3 & Hheard & H).
  apply bind_returns in Hheard as (transcript & t2' & Htr & Hheard).
  destruct (adds_run _ _ _ _ _ (transcribe_adds audio_bytes _) Htr)
    as (evs2 & -> & Hall2).
  apply bind_returns in Hheard as (query & t2'' & Hq & Hheard).
  apply translate_text_from_run in Hq as (evs3 & -> & Hall3).
  apply ret_returns in Hheard as [Hpair ->].
  injection Hpair as -> ->.
  destruct query as [|c query]; [discriminate|].
  apply bind_returns in H as (village & t4 & Hv & H).
  apply lift_returns in Hv as [_ ->].
  apply bind_returns in H as (weather_data & t5 & Hw & H).
  unfold call in Hw. injection Hw as _ <-.
  apply bind_returns in H as (predictions & t6 & Hpred & H).
  destruct (adds_run _ _ _ _ _
              (get_dashboard_predictions_adds W profile weather_data) Hpred)
    as (evs6 & -> & Hall6).
  apply bind_returns in H as ([faiss_index docs] & t7 & Hload & H).
  assert (Ht7 : exists evs7, t7 = (t ++ evs7)%list
                             /\ translate_calls evs7
                                = [Call_translate_text transcript
                                     (format_value W source_language) "en"]).
  { destruct (faiss_index_docs (app_state W)) as [p|]; [|discriminate].
    apply ret_returns in Hload as [_ ->].
    exists (evs1 ++ evs2
            ++ (Call_translate_text transcript (format_value W source_language)
                  "en" :: evs3)
            ++ [FetchWeather village] ++ evs6)%list.
    split; [rewrite <- !app_assoc; reflexivity|].
    rewrite !translate_calls_app.
    rewrite (translate_calls_none evs1 Hall1), (translate_calls_none evs2 Hall2),
      (translate_calls_none evs6 Hall6).
    cbn [translate_calls filter is_Call_translate_text external negb app].
    fold (translate_calls evs3).
    rewrite (translate_calls_none evs3 Hall3). reflexivity. }
  destruct Ht7 as (evs7 & -> & Hcalls7). clear Hload Hpred Hprof Htr.
  apply bind_returns in H as (english & t8 & Hchat & H).
  apply process_chat_query_english_run in Hchat
    as (evs8 & prompt & -> & Hall8 & Hgen).
  apply bind_returns in H as (final & t9 & Hfinal & H).
  apply ret_returns in H as [-> ->].
  destruct (translate_text_run W english "en" language_code
              (((t ++ evs7)
                ++ Call_translate_text (String c query) "en" "en" :: evs8)
               ++ [GenerateContent llm_model prompt])%list)
    as (result & evs9 & Hrun & Hall9 & _).
  rewrite Hrun in Hfinal. injection Hfinal as -> <-.
  exists transcript, (format_value W source_language), (String c query), english.
  split; [reflexivity|].
  rewrite !translate_calls_app. rewrite Hcalls7.
  cbn [translate_calls filter is_Call_translate_text external negb].
  fold (translate_calls evs8). fold (translate_calls evs9).
  rewrite (translate_calls_none evs8 Hall8), (translate_calls_none evs9 Hall9).
  cbn [app]. rewrite <- !app_assoc. reflexivity.
Qed.

End MoreChatProperties.

Section SynthesisProperties.

Variable W : World.

Lemma analyze_image_returns (image_bytes : bytes) (t : trace) :
  exists caption t1,
    analyze_image_with_gemini W image_bytes t = (Returns caption, t1).
Proof.
  unfold analyze_image_with_gemini, try_except, bind, call, ret.
  destruct (image_open W t image_bytes) as [image|e]; cbv beta iota.
  - destruct (generate_content_image W _ llm_model image_prompt image);
      do 2 eexists; reflexivity.
  - do 2 eexists; reflexivity.
Qed.

(** [rag_retrieve] returns, and its first call is the embedding of the
    query. *)
Lemma rag_retrieve_returns (query : string) (index : faiss_Index)
  (docs : list string) (k : Z) (t : trace) :
  exists context evs,
    rag_retrieve W query index docs k t
    = (Returns context,
       (t ++ EmbedContent EMBEDDING_MODEL [query] :: evs)%list).
Proof.
  rewrite rag_retrieve_unfold. cbv zeta.
  destruct (embed_content W t EMBEDDING_MODEL [query]) as [x|e].
  2:{ exists retrieval_error, []. reflexivity. }
  destruct (index_search W _ index x k) as [[D indices]|e].
  2:{ eexists _, [_]. rewrite <- app_assoc. reflexivity. }
  destruct (list_getitem indices 0) as [row|e].
  2:{ eexists _, [_]. rewrite <- app_assoc. reflexivity. }
  destruct (relevant_docs_of docs row) as [ds|e];
    eexists _, [_]; rewrite <- app_assoc; reflexivity.
Qed.

Lemma image_step_returns (image_bytes : option bytes) (t : trace) :
  exists image_analysis t1,
    match image_bytes with
    | Some (b :: bs) => analyze_image_with_gemini W (b :: bs)
    | _ => ret "No image provided."
    end t = (Returns image_analysis, t1).
Proof.
  destruct image_bytes as [[|b bs]|];
    first [apply analyze_image_returns|do 2 eexists; reflexivity].
Qed.

(** X19.  Only the synthesis call can make [process_chat_query] raise:
    a failure of the translation, of the image analysis or of the
    retrieval is absorbed, and an exception that comes out was raised by
    [llm_model.generate_content] on the final prompt. *)
Theorem process_chat_query_raises_only_from_synthesis
  (query : string) (profile predictions : pyval) (faiss_index : faiss_Index)
  (docs : list string) (language : string) (image_bytes : option bytes)
  (t t' : trace) (e : exn) :
  process_chat_query W query profile predictions faiss_index docs language
    image_bytes t = (Raises e, t') ->
  exists prompt t_llm,
    generate_content W t_llm llm_model prompt = Raises e
    /\ t' = (t_llm ++ [GenerateContent llm_model prompt])%list.
Proof.
  unfold process_chat_query. intro H.
  unfold bind at 1 in H.
  destruct (translate_text_run W query language "en" t)
    as (eng_query & evs & Htr & _ & _).
  rewrite Htr in H.
  unfold bind at 1 in H.
  destruct (image_step_returns image_bytes
              (t ++ Call_translate_text query language "en" :: evs)%list)
    as (image_analysis & t1 & Himg).
  rewrite Himg in H.
  unfold bind at 1 in H.
  destruct (rag_retrieve_returns eng_query faiss_index docs 3 t1)
    as (rag_context & evs2 & Hrag).
  rewrite Hrag in H.
  unfold call in H. injection H as Hgen <-.
  do 2 eexists. split; [exact Hgen|reflexivity].
Qed.

(** X20.  When the translation of the query fails, the pipeline goes on
    with the sentinel: ["Translation Error"] is the text that is embedded
    for the retrieval and the question put in the final prompt. *)
Theorem process_chat_query_asks_the_translation_sentinel
  (query : string) (profile predictions : pyval) (faiss_index : faiss_Index)
  (docs : list string) (language : string) (image_bytes : option bytes)
  (t : trace) (e : exn) :
  language <> "en" ->
  generate_content W (t ++ [Call_translate_text query language "en"])%list
    translation_model
    (translate_prompt (str_dict_get SUPPORTED_LANGUAGES language language)
       "English" query) = Raises e ->
  In (EmbedContent EMBEDDING_MODEL ["Translation Error"])
    (snd (process_chat_query W query profile predictions faiss_index docs
            language image_bytes t))
  /\ exists image_analysis rag_context,
       In (GenerateContent llm_model
             (chat_prompt (str_dict_get SUPPORTED_LANGUAGES language language)
                (format_value W profile) (format_value W predictions)
                image_analysis rag_context "Translation Error"))
         (snd (process_chat_query W query profile predictions faiss_index
                 docs language image_bytes t)).
Proof.
  intros Hne Hgen.
  assert (exists image_analysis rag_context t1 evs2,
    snd (process_chat_query W query profile predictions faiss_index docs
           language image_bytes t)
    = ((t1 ++ EmbedContent EMBEDDING_MODEL ["Translation Error"] :: evs2)
       ++ [GenerateContent llm_model
             (chat_prompt (str_dict_get SUPPORTED_LANGUAGES language language)
                (format_value W profile) (format_value W predictions)
                image_analysis rag_context "Translation Error")])%list)
    as (image_analysis & rag_context & t1 & evs2 & Hrun).
  { unfold process_chat_query.
    unfold bind at 1.
    destruct (translate_text_run W query language "en" t)
      as (eng_query & evs & Htr & _ & Hresult).
    rewrite Htr. specialize (Hresult Hne).
    change (str_dict_get SUPPORTED_LANGUAGES "en" "en") with "English"
      in Hresult.
    rewrite Hgen in Hresult. subst eng_query.
    unfold bind at 1.
    destruct (image_step_returns image_bytes
                (t ++ Call_translate_text query language "en" :: evs)%list)
      as (image_analysis & t1 & Himg).
    rewrite Himg.
    unfold bind at 1.
    destruct (rag_retrieve_returns "Translation Error" faiss_index docs 3 t1)
      as (rag_context & evs2 & Hrag).
    rewrite Hrag. unfold call. cbn [snd].
    exists image_analysis, rag_context, t1, evs2. reflexivity. }
  rewrite Hrun. split.
  - apply in_or_app. left. apply in_or_app. right. left. reflexivity.
  - exists image_analysis, rag_context. apply in_or_app. right. left.
    reflexivity.
Qed.

Lemma translate_text_adds_no_image_call (text src dest : string) :
  adds (translate_text W text src dest) no_image_call.
Proof. unfold translate_text. adds_auto; exact I. Qed.

Lemma rag_retrieve_adds_no_image_call (query : string) (index : faiss_Index)
  (docs : list string) (k : Z) :
  adds (rag_retrieve W query index docs k) no_image_call.
Proof. unfold rag_retrieve, embed_texts. adds_auto; exact I. Qed.

(** X21.  Without an image, or with an upload of no bytes, the synthesis
    step neither decodes nor analyses an image, and the final prompt says
    ["No image provided."]. *)
Theorem process_chat_query_without_image
  (query : string) (profile predictions : pyval) (faiss_index : faiss_Index)
  (docs : list string) (language : string) (image_bytes : option bytes)
  (t : trace) :
  image_bytes = None \/ image_bytes = Some [] ->
  exists evs eng_query rag_context,
    snd (process_chat_query W query profile predictions faiss_index docs
           language image_bytes t)
    = (t ++ evs
       ++ [GenerateContent llm_model
             (chat_prompt (str_dict_get SUPPORTED_LANGUAGES language language)
                (format_value W profile) (format_value W predictions)
                "No image provided." rag_context eng_query)])%list
    /\ Forall no_image_call evs.
Proof.
  intros Himage. unfold process_chat_query.
  replace (match image_bytes with
           | Some (b :: bs) => analyze_image_with_gemini W (b :: bs)
           | _ => ret "No image provided."
           end) with (@ret string "No image provided.")
    by (destruct Himage as [->| ->]; reflexivity).
  unfold bind at 1.
  destruct (translate_text W query language "en" t) as [[eng_query|e] t1] eqn:Htr.
  2:{ destruct (translate_text_run W query language "en" t)
        as (r & evs & Hr & _). rewrite Hr in Htr. discriminate. }
  destruct (adds_run _ _ _ _ _ (translate_text_adds_no_image_call query language
                                  "en") Htr) as (evs1 & -> & Hall1).
  unfold bind at 1. unfold ret at 1.
  unfold bind at 1.
  destruct (rag_retrieve W eng_query faiss_index docs 3 (t ++ evs1)%list)
    as [[rag_context|e] t2] eqn:Hrag.
  2:{ destruct (rag_retrieve_returns eng_query faiss_index docs 3
                  (t ++ evs1)%list) as (c & evs & Hc).
      rewrite Hc in Hrag. discriminate. }
  destruct (adds_run _ _ _ _ _ (rag_retrieve_adds_no_image_call eng_query
                                  faiss_index docs 3) Hrag)
    as (evs2 & -> & Hall2).
  unfold call. cbn [snd].
  exists (evs1 ++ evs2)%list, eng_query, rag_context.
  split; [rewrite <- !app_assoc; reflexivity|].
  apply Forall_app. now split.
Qed.

End SynthesisProperties.

Section DashboardProperties.

Variable W : World.

Lemma fmt_get_dict (d : list (string * pyval)) (key : string)
  (default : pyval) (t : trace) :
  exists s, fmt_get W (PDict d) key default t = (Returns s, t).
Proof. eexists. reflexivity. Qed.

Lemma dashboard_prompt_dicts (p w : list (string * pyval)) (t : trace) :
  exists prompt,
    dashboard_prompt W (PDict p) (PDict w) t = (Returns prompt, t).
Proof. eexists. reflexivity. Qed.


(** X23.  A profile or a weather report that is not a dict makes
    [get_dashboard_predictions] raise [AttributeError] while the prompt is
    built: the structured model is not called and the default report is not
    returned. *)
Theorem get_dashboard_predictions_needs_dicts (profile weather : pyval)
  (t : trace) :
  is_dict profile && is_dict weather = false ->
  exists msg,
    get_dashboard_predictions W profile weather t
    = (Raises (PyExc AttributeError msg), t).
Proof.
  intro H. unfold get_dashboard_predictions, bind at 1.
  destruct profile; try (eexists; reflexivity).
  destruct weather; try (eexists; reflexivity).
  discriminate.
Qed.

End DashboardProperties.

Section SplitProperties.

Variable sep : string.
Hypothesis sep_not_empty : sep <> "".

Lemma string_app_empty (s : string) : s ++ "" = s.
Proof. induction s as [|c s IH]; cbn; [reflexivity|now rewrite IH]. Qed.

Lemma string_length_app (a b : string) :
  String.length (a ++ b) = (String.length a + String.length b)%nat.
Proof. induction a as [|c a IH]; cbn; [reflexivity|now rewrite IH]. Qed.

Lemma prefix_gives_rest (p s : string) :
  String.prefix p s = true -> exists rest, s = p ++ rest.
Proof.
  revert s. induction p as [|c p IH]; intros s H.
  - exists s. reflexivity.
  - destruct s as [|c' s]; [discriminate|]. cbn in H.
    destruct (ascii_dec c c') as [<-|]; [|discriminate].
    destruct (IH s H) as (rest & ->). exists rest. reflexivity.
Qed.

Lemma prefix_of_append (p rest : string) : String.prefix p (p ++ rest) = true.
Proof.
  induction p as [|c p IH]; cbn.
  - destruct rest; reflexivity.
  - destruct (ascii_dec c c); [exact IH|congruence].
Qed.

Lemma split_from_skip (r rest piece : string) :
  split_from sep (String.length r) piece (r ++ rest)
  = split_from sep 0 piece rest.
Proof. induction r as [|c r IH]; cbn; [reflexivity|exact IH]. Qed.

Lemma split_from_cons (skip : nat) (piece s : string) :
  exists d ds, split_from sep skip piece s = d :: ds.
Proof.
  revert skip piece. induction s as [|c s IH]; intros skip piece.
  - do 2 eexists. reflexivity.
  - cbn [split_from]. destruct skip as [|n]; [|apply IH].
    destruct (String.prefix sep (String c s)); [do 2 eexists; reflexivity|].
    apply IH.
Qed.

(** At a separator the scan closes the piece and goes on behind it. *)
Lemma split_from_at_separator (piece rest : string) :
  split_from sep 0 piece (sep ++ rest)
  = piece :: split_from sep 0 "" rest.
Proof.
  destruct sep as [|c r] eqn:Hsep; [congruence|].
  change (String c r ++ rest) with (String c (r ++ rest)).
  cbn [split_from]. rewrite <- Hsep.
  replace (String c (r ++ rest)) with (sep ++ rest) by now rewrite Hsep.
  rewrite prefix_of_append. rewrite Hsep. cbn [String.length].
  replace (S (String.length r) - 1)%nat with (String.length r) by lia.
  f_equal. rewrite <- Hsep. apply split_from_skip.
Qed.

Lemma join_cons (d : string) (skip : nat) (piece s : string) :
  join sep (d :: split_from sep skip piece s)
  = d ++ sep ++ join sep (split_from sep skip piece s).
Proof.
  destruct (split_from_cons skip piece s) as (d' & ds' & ->). reflexivity.
Qed.

Lemma join_split_from (n : nat) :
  forall s piece, (String.length s <= n)%nat ->
  join sep (split_from sep 0 piece s) = piece ++ s.
Proof.
  induction n as [|n IH]; intros s piece Hlen.
  - destruct s; [|cbn in Hlen; lia]. cbn. now rewrite string_app_empty.
  - destruct s as [|c s]; [cbn; now rewrite string_app_empty|].
    destruct (String.prefix sep (String c s)) eqn:Hprefix.
    + destruct (prefix_gives_rest _ _ Hprefix) as (rest & Hrest).
      rewrite Hrest, split_from_at_separator, (join_cons piece).
      rewrite IH; [reflexivity|].
      apply (f_equal String.length) in Hrest.
      rewrite string_length_app in Hrest. cbn in Hrest, Hlen.
      destruct sep; [congruence|]. cbn in Hrest. lia.
    + cbn [split_from]. rewrite Hprefix. rewrite IH by (cbn in Hlen; lia).
      rewrite string_app_assoc. reflexivity.
Qed.

Lemma join_split (s : string) : join sep (split sep s) = s.
Proof. apply (join_split_from (String.length s)). lia. Qed.

Lemma app_same_length (a b x y : string) :
  a ++ x = b ++ y -> String.length a = String.length b -> a = b /\ x = y.
Proof.
  revert b. induction a as [|c a IH]; intros [|c' b] H Hlen;
    try discriminate.
  - split; [reflexivity|exact H].
  - cbn in H, Hlen. injection H as -> H. injection Hlen as Hlen.
    destruct (IH b H Hlen) as [-> ->]. split; reflexivity.
Qed.

Lemma sep_length : (0 < String.length sep)%nat.
Proof. destruct sep; [congruence|cbn; lia]. Qed.

Lemma closed_piece_has_no_separator (piece s : string) :
  none_starts_in sep piece s -> ~ contains piece sep.
Proof.
  intros Hnone (before & after & Hpiece).
  specialize (Hnone before (after ++ s)).
  rewrite Hpiece, !string_app_assoc in Hnone. specialize (Hnone eq_refl).
  rewrite !string_length_app in Hnone. pose proof sep_length. lia.
Qed.

Lemma split_from_pieces (n : nat) :
  forall s piece, (String.length s <= n)%nat ->
  none_starts_in sep piece s ->
  Forall (fun d => ~ contains d sep) (split_from sep 0 piece s).
Proof.
  induction n as [|n IH]; intros s piece Hlen Hnone.
  - destruct s; [|cbn in Hlen; lia]. cbn. constructor; [|constructor].
    exact (closed_piece_has_no_separator _ _ Hnone).
  - destruct s as [|c s].
    { cbn. constructor; [|constructor].
      exact (closed_piece_has_no_separator _ _ Hnone). }
    destruct (String.prefix sep (String c s)) eqn:Hprefix.
    + destruct (prefix_gives_rest _ _ Hprefix) as (rest & Hrest).
      rewrite Hrest, split_from_at_separator. constructor.
      * exact (closed_piece_has_no_separator _ _ Hnone).
      * apply IH.
        -- apply (f_equal String.length) in Hrest.
           rewrite string_length_app in Hrest. cbn in Hrest, Hlen.
           pose proof sep_length. lia.
        -- intros before after _. cbn. lia.
    + cbn [split_from]. rewrite Hprefix. apply IH; [cbn in Hlen; lia|].
      intros before after Heq. rewrite string_app_assoc in Heq. cbn in Heq.
      pose proof (Hnone before after Heq) as Hle.
      rewrite string_length_app. cbn.
      destruct (Nat.eq_dec (String.length piece) (String.length before))
        as [Hsame|]; [|lia].
      destruct (app_same_length _ _ _ _ Heq Hsame) as [_ Hs].
      rewrite Hs, prefix_of_append in Hprefix. discriminate.
Qed.

Lemma split_pieces (s : string) :
  Forall (fun d => ~ contains d sep) (split sep s).
Proof.
  apply (split_from_pieces (String.length s)); [lia|].
  intros before after _. cbn. lia.
Qed.

End SplitProperties.

Section StartupProperties.

(** X24.  What [load_faiss_index] hands over was read from the two files:
    both exist, the index is the one [faiss.read_index] gave, and the
    documents are the text of the documents file cut at the separator
    lines: there is at least one, none holds a separator, and joined by
    the separator they give the text back. *)
Theorem load_faiss_index_documents_are_the_file (disk : Disk)
  (index_path docs_path : string) (index : faiss_Index) (docs : list string) :
  load_faiss_index disk index_path docs_path = Some (index, docs) ->
  path_exists disk index_path = true
  /\ path_exists disk docs_path = true
  /\ faiss_read_index disk index_path = Returns index
  /\ docs <> []
  /\ Forall (fun d => ~ contains d docs_separator) docs
  /\ read_text disk docs_path = Returns (join docs_separator docs).
Proof.
  unfold load_faiss_index. intro H.
  destruct (path_exists disk index_path); [|discriminate].
  destruct (path_exists disk docs_path); [|discriminate].
  cbn [negb orb] in H.
  destruct (faiss_read_index disk index_path) as [index'|]; [|discriminate].
  destruct (read_text disk docs_path) as [text|]; [|discriminate].
  injection H as -> <-.
  assert (Hsep : docs_separator <> "") by discriminate.
  repeat split.
  - unfold split.
    destruct (split_from_cons docs_separator 0 "" text) as (d & ds & ->).
    discriminate.
  - apply split_pieces, Hsep.
  - now rewrite join_split.
Qed.

End StartupProperties.

Section SpeechClientProperties.

Variable W : World.

(** X25.  When [speech.SpeechClient()] fails at startup the server still
    starts, and the voice endpoints answer 503 before they touch the audio
    or any service: the voice log for an upload that has bytes, the
    onboarding for any upload. *)
Theorem voice_endpoints_without_speech_client
  (s : Startup) (e : exn) (farm_id language_code question field_name : string)
  (b : Byte.byte) (bs audio_file : bytes) (t : trace) :
  app_state W = lifespan_startup s ->
  new_speech_client s
    match env_GOOGLE_APPLICATION_CREDENTIALS s with
    | None | Some EmptyString => "keys.json"
    | Some path => path
    end = Raises e ->
  create_log_from_voice W farm_id (b :: bs) language_code t
  = (Raises (HTTPException 503 "Speech client not initialized."), t)
  /\ fill_form_field_with_voice W audio_file question field_name t
     = (Raises (HTTPException 503 "Speech client not initialized."), t).
Proof.
  intros Hstate Hclient.
  assert (Hnone : speech_client (app_state W) = false).
  { rewrite Hstate. cbn [speech_client lifespan_startup].
    now rewrite Hclient. }
  unfold create_log_from_voice, fill_form_field_with_voice,
    transcribe_audio_with_google, bind.
  rewrite Hnone. split; reflexivity.
Qed.

End SpeechClientProperties.

Section ApiClientProperties.

Variable W : World.
Variable DB_API_BASE_URL : string.

Lemma api_client_request_run (endpoint : string) (t : trace) :
  ApiClient._make_api_request W DB_API_BASE_URL "GET" endpoint None t
  = (match http_request W t "GET" (DB_API_BASE_URL ++ endpoint) None (Some 15)
     with
     | Raises e => if except_RequestException e then Returns PNone else Raises e
     | Returns r =>
         if (400 <=? status_code_of r) && (status_code_of r <? 600)
         then Returns PNone
         else match json_of r with
              | Returns v => Returns v
              | Raises e =>
                  if except_RequestException e then Returns PNone else Raises e
              end
     end,
     (t ++ [HttpRequest "GET" (DB_API_BASE_URL ++ endpoint) None (Some 15)])%list).
Proof.
  unfold ApiClient._make_api_request.
  change (String.eqb (upper "GET") "GET") with true. cbv beta iota zeta.
  unfold try_except, bind, requests_call, call, lift, ret, raise_for_status.
  destruct (http_request W t "GET" _ None (Some 15)) as [r|e];
    [|destruct (except_RequestException e); reflexivity].
  destruct ((400 <=? status_code_of r) && (status_code_of r <? 600));
    [reflexivity|].
  destruct (json_of r) as [v|e]; [reflexivity|].
  destruct (except_RequestException e); reflexivity.
Qed.

(** X26.  [api_client.get_user_profile] sends one GET for the farms of the
    user and at most one more, for the details of a farm, both with the
    15 second timeout; a profile other than [None] is only returned after
    the second request. *)
Theorem api_client_get_user_profile_requests (user_id : string) (t : trace) :
  exists rest,
    snd (ApiClient.get_user_profile W DB_API_BASE_URL user_id t)
    = (t ++ HttpRequest "GET"
              (DB_API_BASE_URL ++ "/api/users/" ++ user_id ++ "/farms/")
              None (Some 15) :: rest)%list
    /\ (rest = []
        \/ exists farm_id,
             rest = [HttpRequest "GET"
                       (DB_API_BASE_URL ++ "/api/farms/" ++ farm_id)
                       None (Some 15)])
    /\ (forall profile,
          fst (ApiClient.get_user_profile W DB_API_BASE_URL user_id t)
          = Returns profile ->
          rest = [] -> profile = PNone).
Proof.
  assert (Hrun : exists o rest,
    ApiClient.get_user_profile W DB_API_BASE_URL user_id t
    = (o, (t ++ HttpRequest "GET"
                  (DB_API_BASE_URL ++ "/api/users/" ++ user_id ++ "/farms/")
                  None (Some 15) :: rest)%list)
    /\ (rest = []
        \/ exists farm_id,
             rest = [HttpRequest "GET"
                       (DB_API_BASE_URL ++ "/api/farms/" ++ farm_id)
                       None (Some 15)])
    /\ (forall profile, o = Returns profile -> rest = [] -> profile = PNone)).
  { unfold ApiClient.get_user_profile. unfold bind at 1.
    rewrite api_client_request_run.
    assert (Hstop : forall o : outcome pyval,
              (forall profile, o = Returns profile -> profile = PNone) ->
              exists o' rest,
                (o, (t ++ [HttpRequest "GET"
                             (DB_API_BASE_URL ++ "/api/users/" ++ user_id
                              ++ "/farms/") None (Some 15)])%list)
                = (o', (t ++ HttpRequest "GET"
                          (DB_API_BASE_URL ++ "/api/users/" ++ user_id
                           ++ "/farms/") None (Some 15) :: rest)%list)
                /\ (rest = []
                    \/ exists farm_id,
                         rest = [HttpRequest "GET"
                                   (DB_API_BASE_URL ++ "/api/farms/" ++ farm_id)
                                   None (Some 15)])
                /\ (forall profile, o' = Returns profile ->
                    rest = [] -> profile = PNone)).
    { intros o Ho. exists o, []. split; [reflexivity|].
      split; [now left|]. intros profile Hp _. exact (Ho profile Hp). }
    match goal with
    | |- context [match ?o with Returns _ => _ | Raises _ => _ end] =>
        destruct o as [farms|e0] eqn:Hfirst
    end.
    2:{ apply (Hstop (Raises e0)). discriminate. }
    destruct (truthy farms); cbn [negb].
    2:{ apply (Hstop (Returns PNone)). intros profile [= <-]. reflexivity. }
    unfold bind at 1, lift at 1.
    destruct (ApiClient.first_item farms) as [first|e1].
    2:{ apply (Hstop (Raises e1)). discriminate. }
    unfold bind at 1, lift at 1.
    destruct (ApiClient.get_or_None first "id") as [primary_farm_id|e2].
    2:{ apply (Hstop (Raises e2)). discriminate. }
    destruct (truthy primary_farm_id); cbn [negb].
    2:{ apply (Hstop (Returns PNone)). intros profile [= <-]. reflexivity. }
    unfold bind at 1. rewrite api_client_request_run.
    match goal with
    | |- context [match ?o with Returns _ => _ | Raises _ => _ end] =>
        set (answer := o)
    end.
    exists (match answer with Returns a => Returns a | Raises e => Raises e end),
      [HttpRequest "GET"
         (DB_API_BASE_URL ++ "/api/farms/" ++ format_value W primary_farm_id)
         None (Some 15)].
    split.
    - destruct answer; rewrite <- app_assoc; reflexivity.
    - split; [right; eexists; reflexivity|]. discriminate. }
  destruct Hrun as (o & rest & Hrun & Hrest & Hprofile).
  exists rest. rewrite Hrun. cbn [fst snd]. now repeat split.
Qed.

(** X27.  [api_client.get_user_profile] takes the first farm with
    [farms[0].get('id')] outside any [try]: when the gateway answers the
    first request with a JSON object that is not empty the lookup of the
    key [0] raises [KeyError], and with a list whose first item is not an
    object it raises [AttributeError]; no second request is sent. *)
Theorem api_client_get_user_profile_needs_a_list_of_objects
  (user_id : string) (t : trace) (r : Response) (body : pyval) :
  http_request W t "GET"
    (DB_API_BASE_URL ++ "/api/users/" ++ user_id ++ "/farms/") None (Some 15)
  = Returns r ->
  ~ 400 <= status_code_of r < 600 ->
  json_of r = Returns body ->
  (forall entry entries, body = PDict (entry :: entries) ->
   ApiClient.get_user_profile W DB_API_BASE_URL user_id t
   = (Raises (PyExc KeyError "0"),
      (t ++ [HttpRequest "GET"
               (DB_API_BASE_URL ++ "/api/users/" ++ user_id ++ "/farms/")
               None (Some 15)])%list))
  /\ (forall first others, body = PList (first :: others) ->
      is_dict first = false ->
      exists msg,
        ApiClient.get_user_profile W DB_API_BASE_URL user_id t
        = (Raises (PyExc AttributeError msg),
           (t ++ [HttpRequest "GET"
                    (DB_API_BASE_URL ++ "/api/users/" ++ user_id ++ "/farms/")
                    None (Some 15)])%list)).
Proof.
  intros Hrequest Hstatus Hbody.
  assert (Hok : (400 <=? status_code_of r) && (status_code_of r <? 600) = false).
  { apply andb_false_iff.
    destruct (Z.le_gt_cases 400 (status_code_of r)) as [Hle|Hgt].
    - right. apply Z.ltb_ge. lia.
    - left. apply Z.leb_gt. lia. }
  split.
  - intros entry entries ->.
    unfold ApiClient.get_user_profile. unfold bind at 1.
    rewrite api_client_request_run, Hrequest, Hok, Hbody. reflexivity.
  - intros first others -> Hfirst.
    unfold ApiClient.get_user_profile. unfold bind at 1.
    rewrite api_client_request_run, Hrequest, Hok, Hbody.
    destruct first; try discriminate; eexists; reflexivity.
Qed.

End ApiClientProperties.

(** * The further properties on concrete runs *)

Lemma make_api_request_failure_returns_None_witness :
  upper "get" = "GET"
  /\ (exists msg,
         http_request down_world [] "GET"
           (API_BASE_URL down_world ++ "/api/users/ramesh_123/farms/") None
           (Some 15) = Raises (PyExc RequestException msg))
  /\ _make_api_request down_world "get" "/api/users/ramesh_123/farms/" None []
     = (Returns PNone,
        [HttpRequest "GET"
           (API_BASE_URL down_world ++ "/api/users/ramesh_123/farms/") None
           (Some 15)]).
Proof.
  assert (H : exists msg,
             http_request down_world [] "GET"
               (API_BASE_URL down_world ++ "/api/users/ramesh_123/farms/")
               None (Some 15) = Raises (PyExc RequestException msg))
    by (exists "ConnectTimeout"; reflexivity).
  split; [reflexivity|]. split; [exact H|].
  apply (make_api_request_failure_returns_None down_world "get"
           "/api/users/ramesh_123/farms/" None None "GET" []).
  - left. split; reflexivity.
  - reflexivity.
  - left. exact H.
Defined.


Lemma make_api_request_other_exception_propagates_witness :
  except_RequestException unavailable = false
  /\ http_request broken_world [] "GET"
       (API_BASE_URL broken_world ++ "/api/users/ramesh_123/farms/") None
       (Some 15) = Raises unavailable
  /\ fst (_make_api_request broken_world "GET" "/api/users/ramesh_123/farms/"
            None []) = Raises unavailable.
Proof.
  split; [reflexivity|]. split; [reflexivity|].
  apply (make_api_request_other_exception_propagates broken_world "GET"
           "/api/users/ramesh_123/farms/" None None "GET" [] unavailable).
  - left. split; reflexivity.
  - reflexivity.
  - reflexivity.
  - left. reflexivity.
Defined.

Lemma transcribe_audio_raises_only_HTTPException_witness :
  transcribe_audio_with_google down_world demo_audio "mr" []
  = (Raises (HTTPException 503 "Speech client not initialized."), [])
  /\ ((speech_client (app_state down_world) = false
       /\ HTTPException 503 "Speech client not initialized."
          = HTTPException 503 "Speech client not initialized."
       /\ @nil event = [])
      \/ (speech_client (app_state down_world) = true
          /\ exists detail,
               HTTPException 503 "Speech client not initialized."
               = HTTPException 500 detail
               /\ String.prefix "Failed to transcribe audio: " detail = true)).
Proof.
  split; [reflexivity|].
  apply (transcribe_audio_raises_only_HTTPException down_world demo_audio "mr"
           [] []).
  reflexivity.
Defined.

Lemma transcribe_audio_returns_first_alternative_of_first_result_witness :
  speech_client (app_state echo_world) = true
  /\ fst (transcribe_audio_with_google echo_world demo_audio "mr" [])
     = Returns demo_notes.
Proof.
  split; [reflexivity|].
  destruct (transcribe_audio_returns_first_alternative_of_first_result
              echo_world demo_audio "mr" []
              {| frame_rate := 16000; channels := 1; wav_export := demo_audio |}
              [[demo_notes]] eq_refl eq_refl eq_refl) as [_ H].
  exact (H demo_notes [] [] eq_refl).
Defined.

Lemma create_log_entry_answer_witness :
  fst (create_log_entry echo_world "farm_1" demo_log_request [])
  = Returns (PDict [("id", PStr "log_1")])
  /\ fst (create_log_entry empty_answer_world "farm_1" demo_log_request [])
     = Raises (HTTPException 500 "Failed to save log entry via API.").
Proof.
  split.
  - rewrite (create_log_entry_answer echo_world "farm_1" demo_log_request []
               {| status_code_of := 201;
                  json_of := Returns (PDict [("id", PStr "log_1")]) |}
               (PDict [("id", PStr "log_1")]) eq_refl eq_refl).
    reflexivity.
  - rewrite (create_log_entry_answer empty_answer_world "farm_1"
               demo_log_request []
               {| status_code_of := 200; json_of := Returns (PDict []) |}
               (PDict []) eq_refl eq_refl).
    reflexivity.
Defined.

Lemma create_log_from_voice_posts_every_transcript_witness :
  demo_audio <> []
  /\ fst (transcribe_audio_with_google echo_world demo_audio "mr" [])
     = Returns demo_notes
  /\ demo_notes <> ""
  /\ snd (create_log_from_voice echo_world "farm_1" demo_audio "mr" [])
     = [ AudioFromFile demo_audio;
         SpeechRecognize "mr-IN" 16000 1 demo_audio;
         DatetimeNow; DatetimeNow;
         HttpRequest "POST"
           (API_BASE_URL echo_world ++ "/api/farms/farm_1/activities")
           (Some (PDict (voice_log_payload "farm_1" demo_notes
                           "2025-09-20T18:45:07.250000Z")))
           (Some 15) ].
Proof.
  split; [discriminate|]. split; [reflexivity|]. split; [discriminate|].
  rewrite (create_log_from_voice_posts_every_transcript echo_world "farm_1"
             demo_audio "mr" [] demo_notes);
    [reflexivity|discriminate|reflexivity|discriminate].
Defined.

Lemma create_log_from_voice_falsy_answer_is_an_error_witness :
  transcribe_audio_with_google empty_answer_world demo_audio "mr" []
  = (Returns demo_notes,
     [AudioFromFile demo_audio; SpeechRecognize "mr-IN" 16000 1 demo_audio])
  /\ truthy (PDict []) = false
  /\ fst (create_log_from_voice empty_answer_world "farm_1" demo_audio "mr" [])
     = Raises (HTTPException 500 "Failed to save log entry to the database.").
Proof.
  split; [reflexivity|]. split; [reflexivity|].
  apply (create_log_from_voice_falsy_answer_is_an_error empty_answer_world
           "farm_1" demo_audio "mr" []
           [AudioFromFile demo_audio;
            SpeechRecognize "mr-IN" 16000 1 demo_audio]
           demo_notes
           {| status_code_of := 200; json_of := Returns (PDict []) |}
           (PDict [])).
  - discriminate.
  - reflexivity.
  - discriminate.
  - reflexivity.
  - cbn. lia.
  - reflexivity.
  - reflexivity.
Defined.

Lemma create_log_from_voice_date_is_timestamp_prefix_witness :
  (forall t, valid_datetime (datetime_now echo_world t))
  /\ exists t2 payload timestamp,
       snd (create_log_from_voice echo_world "farm_1" demo_audio "mr" [])
       = (t2 ++ [HttpRequest "POST"
                   (API_BASE_URL echo_world ++ "/api/farms/" ++ "farm_1"
                    ++ "/activities")
                   (Some (PDict payload)) (Some 15)])%list
       /\ entries_get payload "timestamp" = Some (PStr timestamp)
       /\ entries_get payload "description" = Some (PStr demo_notes)
       /\ Some "2025-09-20" = Some (substring 0 10 timestamp).
Proof.
  split; [exact demo_clock_valid|].
  exact (create_log_from_voice_date_is_timestamp_prefix echo_world
           demo_clock_valid "farm_1" demo_audio "mr" [] _ _
           demo_voice_log_run).
Defined.



Lemma chat_without_index_never_answers_witness :
  app_state bare_world = lifespan_startup bare_startup
  /\ path_exists (disk bare_startup) VECTOR_DB_PATH = false
  /\ exists e,
       fst (chat_with_assistant bare_world "ramesh_123" (Some demo_query) "hi"
              None None []) = Raises e.
Proof.
  split; [reflexivity|]. split; [reflexivity|].
  apply (chat_without_index_never_answers bare_world bare_startup).
  - reflexivity.
  - left. reflexivity.
Defined.

Lemma demo_spoken_chat_run :
  chat_with_assistant echo_world "ramesh_123" None "hi" None (Some demo_audio) []
  = (Returns {| response_text := demo_answer;
                transcribed_text := Some demo_notes |},
     snd (chat_with_assistant echo_world "ramesh_123" None "hi" None
            (Some demo_audio) [])).
Proof. vm_compute. reflexivity. Qed.

Lemma chat_audio_enters_translate_text_three_times_witness :
  (exists transcript source user_query english,
      Some demo_notes = Some transcript
      /\ translate_calls
           (snd (chat_with_assistant echo_world "ramesh_123" None "hi" None
                   (Some demo_audio) []))
         = (translate_calls []
            ++ [ Call_translate_text transcript source "en";
                 Call_translate_text user_query "en" "en";
                 Call_translate_text english "en" "hi" ])%list)
  /\ (forall other_query,
         chat_with_assistant echo_world "ramesh_123" other_query "hi" None
           (Some demo_audio) []
         = (Returns {| response_text := demo_answer;
                       transcribed_text := Some demo_notes |},
            snd (chat_with_assistant echo_world "ramesh_123" None "hi" None
                   (Some demo_audio) []))).
Proof.
  exact (chat_audio_enters_translate_text_three_times echo_world "ramesh_123"
           None "hi" None demo_audio [] _ _ demo_spoken_chat_run).
Defined.

Lemma demo_down_synthesis_run :
  process_chat_query down_world demo_query demo_profile (PDict []) demo_index
    demo_docs "hi" None []
  = (Raises unavailable,
     snd (process_chat_query down_world demo_query demo_profile (PDict [])
            demo_index demo_docs "hi" None [])).
Proof. vm_compute. reflexivity. Qed.

Lemma process_chat_query_raises_only_from_synthesis_witness :
  exists prompt t_llm,
    generate_content down_world t_llm llm_model prompt = Raises unavailable
    /\ snd (process_chat_query down_world demo_query demo_profile (PDict [])
              demo_index demo_docs "hi" None [])
       = (t_llm ++ [GenerateContent llm_model prompt])%list.
Proof.
  exact (process_chat_query_raises_only_from_synthesis down_world demo_query
           demo_profile (PDict []) demo_index demo_docs "hi" None [] _ _
           demo_down_synthesis_run).
Defined.

Lemma process_chat_query_asks_the_translation_sentinel_witness :
  "hi" <> "en"
  /\ In (EmbedContent EMBEDDING_MODEL ["Translation Error"])
       (snd (process_chat_query down_world demo_query demo_profile (PDict [])
               demo_index demo_docs "hi" None [])).
Proof.
  split; [discriminate|].
  apply (process_chat_query_asks_the_translation_sentinel down_world
           demo_query demo_profile (PDict []) demo_index demo_docs "hi" None []
           unavailable);
    [discriminate|reflexivity].
Defined.

Lemma process_chat_query_without_image_witness :
  exists evs eng_query rag_context,
    snd (process_chat_query echo_world demo_query demo_profile (PDict [])
           demo_index demo_docs "en" (Some []) [])
    = ([] ++ evs
       ++ [GenerateContent llm_model
             (chat_prompt (str_dict_get SUPPORTED_LANGUAGES "en" "en")
                (format_value echo_world demo_profile)
                (format_value echo_world (PDict []))
                "No image provided." rag_context eng_query)])%list
    /\ Forall no_image_call evs.
Proof.
  apply (process_chat_query_without_image echo_world demo_query demo_profile
           (PDict []) demo_index demo_docs "en" (Some []) []).
  right. reflexivity.
Defined.

Lemma get_dashboard_predictions_needs_dicts_witness :
  is_dict (PStr "farm_1") && is_dict (PDict []) = false
  /\ exists msg,
       get_dashboard_predictions echo_world (PStr "farm_1") (PDict []) []
       = (Raises (PyExc AttributeError msg), []).
Proof.
  split; [reflexivity|].
  apply (get_dashboard_predictions_needs_dicts echo_world (PStr "farm_1")
           (PDict []) []).
  reflexivity.
Defined.

Lemma load_faiss_index_documents_are_the_file_witness :
  load_faiss_index demo_disk VECTOR_DB_PATH DOCS_PATH
  = Some (demo_index, ["doc0"; "doc1"])
  /\ Forall (fun d => ~ contains d docs_separator) ["doc0"; "doc1"]
  /\ read_text demo_disk DOCS_PATH
     = Returns (join docs_separator ["doc0"; "doc1"]).
Proof.
  split; [reflexivity|].
  destruct (load_faiss_index_documents_are_the_file demo_disk VECTOR_DB_PATH
              DOCS_PATH demo_index ["doc0"; "doc1"] eq_refl)
    as (_ & _ & _ & _ & Hpieces & Htext).
  split; [exact Hpieces|exact Htext].
Defined.

Lemma voice_endpoints_without_speech_client_witness :
  app_state bare_world = lifespan_startup bare_startup
  /\ create_log_from_voice bare_world "farm_1" demo_audio "mr" []
     = (Raises (HTTPException 503 "Speech client not initialized."), [])
  /\ fill_form_field_with_voice bare_world demo_audio
       "What is your village?" "village" []
     = (Raises (HTTPException 503 "Speech client not initialized."), []).
Proof.
  split; [reflexivity|].
  apply (voice_endpoints_without_speech_client bare_world bare_startup
           unavailable "farm_1" "mr" "What is your village?" "village"
           Byte.x52 [Byte.x49; Byte.x46; Byte.x46] demo_audio []);
    reflexivity.
Defined.

Lemma api_client_get_user_profile_needs_a_list_of_objects_witness :
  json_of {| status_code_of := 200; json_of := Returns error_body |}
  = Returns error_body
  /\ ApiClient.get_user_profile (error_world 200) "http://db" "ramesh_123" []
     = (Raises (PyExc KeyError "0"),
        [HttpRequest "GET" "http://db/api/users/ramesh_123/farms/" None
           (Some 15)]).
Proof.
  split; [reflexivity|].
  destruct (api_client_get_user_profile_needs_a_list_of_objects
              (error_world 200) "http://db" "ramesh_123" []
              {| status_code_of := 200; json_of := Returns error_body |}
              error_body eq_refl) as [H _].
  - cbn. lia.
  - reflexivity.
  - exact (H ("detail", PStr "Not Found") [] eq_refl).
Defined.
